(** * rainforest_server.py: search gateway, normaliser and HTML renderer

    A shallow embedding of [src/rainforest_server.py].  Python values are
    modelled by the inductive type [pyval]; a Python [str] is a list of
    Unicode code points; an exception is an explicit [Raise] result; the
    process-wide configuration read from the environment is a record that
    is passed explicitly; the outbound HTTP call is an oracle from the
    requested URL to what the [try] block of [search_rainforest] observes,
    and the URLs requested are returned as a trace. *)

From Stdlib Require Import List NArith ZArith Bool Ascii String Lia.
From Stdlib Require Import SpecFloat.
From Stdlib Require Decimal.
Import ListNotations.

Set Implicit Arguments.
Set Warnings "-register-all".

(** ** Python strings *)

(** A code point.  A [str] is a sequence of code points; its UTF-8 bytes
    are only produced by [encode_utf8] at the very end of [render_html]. *)
Definition char := N.
Definition pystr := list char.

(** An ASCII literal of the source, as code points. *)
Definition lit (s : string) : pystr :=
  map N_of_ascii (list_ascii_of_string s).
Arguments lit s%_string.

(** The three non-ASCII characters of the page template, and the double
    quote. *)
Definition dq : pystr := [34%N].
Definition ellipsis : pystr := [8230%N].   (* U+2026 *)
Definition star : pystr := [9733%N].       (* U+2605 *)
Definition bullet : pystr := [8226%N].     (* U+2022 *)

Fixpoint str_eqb (a b : pystr) : bool :=
  match a, b with
  | [], [] => true
  | x :: a', y :: b' => N.eqb x y && str_eqb a' b'
  | _, _ => false
  end.

(** [str.isspace] for one character: the code points CPython's
    [_PyUnicode_IsWhitespace] accepts; these are what [str.strip()] with no
    argument removes. *)
Definition is_space (c : char) : bool :=
  ((9 <=? c) && (c <=? 13) || (28 <=? c) && (c <=? 32)
   || (c =? 133) || (c =? 160) || (c =? 5760)
   || (8192 <=? c) && (c <=? 8202)
   || (c =? 8232) || (c =? 8233) || (c =? 8239) || (c =? 8287)
   || (c =? 12288))%N.

Fixpoint lstrip (s : pystr) : pystr :=
  match s with
  | c :: s' => if is_space c then lstrip s' else s
  | [] => []
  end.

Definition rstrip (s : pystr) : pystr := rev (lstrip (rev s)).

(** [s.strip()] *)
Definition strip (s : pystr) : pystr := rstrip (lstrip s).

(** [html.escape(s)] with its default [quote=True]: the five replacements
    [&], [<], [>], double quote, single quote. *)
Definition escape_char (c : char) : pystr :=
  if (c =? 38)%N then lit "&amp;"
  else if (c =? 60)%N then lit "&lt;"
  else if (c =? 62)%N then lit "&gt;"
  else if (c =? 34)%N then lit "&quot;"
  else if (c =? 39)%N then lit "&#x27;"
  else [c].

Definition escape (s : pystr) : pystr := flat_map escape_char s.

(** ** Exceptions *)

Inductive exn : Set :=
| AttributeError
| TypeError
| IndexError
| OverflowError
| ValueError
| UnicodeEncodeError.

Inductive result (A : Type) : Type :=
| Ok (a : A)
| Raise (e : exn).
Arguments Ok {A} a.
Arguments Raise {A} e.

Definition bind {A B} (r : result A) (k : A -> result B) : result B :=
  match r with
  | Ok a => k a
  | Raise e => Raise e
  end.

Notation "x <- r ;; k" := (bind r (fun x => k))
  (at level 61, r at next level, right associativity).

(** A [for] loop that builds a list and stops at the first exception. *)
Fixpoint map_result {A B} (f : A -> result B) (l : list A) : result (list B) :=
  match l with
  | [] => Ok []
  | a :: l' => b <- f a ;; bs <- map_result f l' ;; Ok (b :: bs)
  end.

(** ** UTF-8 *)

(** [chr(c).encode("utf-8")]: surrogates cannot be encoded, and nothing
    above U+10FFFF is a character. *)
Definition utf8_char (c : char) : result (list N) :=
  (if c <? 128 then Ok [c]
   else if c <? 2048 then Ok [192 + c / 64; 128 + c mod 64]
   else if (55296 <=? c) && (c <=? 57343) then Raise UnicodeEncodeError
   else if c <? 65536 then
     Ok [224 + c / 4096; 128 + (c / 64) mod 64; 128 + c mod 64]
   else if c <? 1114112 then
     Ok [240 + c / 262144; 128 + (c / 4096) mod 64;
         128 + (c / 64) mod 64; 128 + c mod 64]
   else Raise UnicodeEncodeError)%N.

(** [s.encode("utf-8")] *)
Fixpoint encode_utf8 (s : pystr) : result (list N) :=
  match s with
  | [] => Ok []
  | c :: s' => b <- utf8_char c ;; bs <- encode_utf8 s' ;; Ok (b ++ bs)
  end.

(** ** Decimal output of integers *)

Fixpoint uint_digits (u : Decimal.uint) : pystr :=
  match u with
  | Decimal.Nil => []
  | Decimal.D0 u' => 48%N :: uint_digits u'
  | Decimal.D1 u' => 49%N :: uint_digits u'
  | Decimal.D2 u' => 50%N :: uint_digits u'
  | Decimal.D3 u' => 51%N :: uint_digits u'
  | Decimal.D4 u' => 52%N :: uint_digits u'
  | Decimal.D5 u' => 53%N :: uint_digits u'
  | Decimal.D6 u' => 54%N :: uint_digits u'
  | Decimal.D7 u' => 55%N :: uint_digits u'
  | Decimal.D8 u' => 56%N :: uint_digits u'
  | Decimal.D9 u' => 57%N :: uint_digits u'
  end.

(** The decimal digits of a natural number, ["0"] for zero. *)
Definition digits (n : N) : pystr := uint_digits (N.to_uint n).

Definition sign_str (neg : bool) : pystr := if neg then lit "-" else [].

(** [str(z)] for an [int]. *)
Definition str_int (z : Z) : pystr :=
  sign_str (z <? 0)%Z ++ digits (Z.abs_N z).

(** The ["," ] grouping of the format mini-language: a comma before every
    group of three digits counted from the right.  [n] is the number of
    digits already emitted since the last comma, going right to left. *)
Fixpoint group3 (n : nat) (rev_ds : pystr) : pystr :=
  match rev_ds with
  | [] => []
  | d :: rest =>
      match n with
      | 3%nat => 44%N :: d :: group3 1 rest
      | _ => d :: group3 (S n) rest
      end
  end.

(** [format(z, ",")] for an [int]. *)
Definition format_comma (z : Z) : pystr :=
  sign_str (z <? 0)%Z ++ rev (group3 0 (rev (digits (Z.abs_N z)))).


(** ** Python values *)

(** The values [json.loads] can return, which are also the values the
    result dictionaries hold.  A [dict] keeps its insertion order, so it is
    an association list; [json.loads] puts every key there once. *)
Inductive pyval : Type :=
| PNone
| PBool (b : bool)
| PInt (z : Z)
| PFloat (f : spec_float)
| PStr (s : pystr)
| PList (l : list pyval)
| PDict (d : list (pystr * pyval)).

Definition dict := list (pystr * pyval).

(** [bool(v)], the truth value [if], [not] and [or] test. *)
Definition truthy (v : pyval) : bool :=
  match v with
  | PNone => false
  | PBool b => b
  | PInt z => negb (z =? 0)%Z
  | PFloat (S754_zero _) => false
  | PFloat _ => true
  | PStr [] => false
  | PStr _ => true
  | PList [] => false
  | PList _ => true
  | PDict [] => false
  | PDict _ => true
  end.

(** [a or b] *)
Definition por (a b : pyval) : pyval := if truthy a then a else b.

Fixpoint lookup {V} (k : pystr) (d : list (pystr * V)) : option V :=
  match d with
  | [] => None
  | (k', v) :: d' => if str_eqb k' k then Some v else lookup k d'
  end.

(** [d.get(k, default)] *)
Definition get_default (d : dict) (k : pystr) (default : pyval) : pyval :=
  match lookup k d with
  | Some v => v
  | None => default
  end.

(** [d.get(k)] *)
Definition get (d : dict) (k : pystr) : pyval := get_default d k PNone.

(** Looking up the attribute [get] of [v]: of the values above only a
    [dict] has it. *)
Definition dict_of (v : pyval) : result dict :=
  match v with
  | PDict d => Ok d
  | _ => Raise AttributeError
  end.

(** [isinstance(v, dict)] and [isinstance(v, list)]. *)
Definition is_dict (v : pyval) : bool :=
  match v with PDict _ => true | _ => false end.

Definition is_list (v : pyval) : bool :=
  match v with PList _ => true | _ => false end.

(** The numbers: [bool] is a subclass of [int], and [True] and [False]
    format as the integers 1 and 0. *)
Inductive number : Type :=
| NInt (z : Z)
| NFloat (f : spec_float).

(** The integer [v] is when [isinstance(v, int)]. *)
Definition as_int (v : pyval) : option Z :=
  match v with
  | PInt z => Some z
  | PBool b => Some (Z.b2z b)
  | _ => None
  end.

(** The number [v] is when [isinstance(v, (int, float))]. *)
Definition as_number (v : pyval) : option number :=
  match v with
  | PInt z => Some (NInt z)
  | PBool b => Some (NInt (Z.b2z b))
  | PFloat f => Some (NFloat f)
  | _ => None
  end.

Definition is_int (v : pyval) : bool :=
  match as_int v with Some _ => true | None => false end.

Definition is_int_or_float (v : pyval) : bool :=
  match as_number v with Some _ => true | None => false end.

(** [l[:stop]] for a list or a string: a negative [stop] counts from the
    end. *)
Definition slice_to {A} (stop : Z) (l : list A) : list A :=
  if (0 <=? stop)%Z then firstn (Z.to_nat stop) l
  else firstn (Z.to_nat (Z.of_nat (List.length l) + stop)) l.

(** ** Fixed-point output of numbers *)

(** [float(z)] for an [int], as the integer the resulting double is worth:
    exact below 2^53, else rounded to 53 significant bits, ties to even;
    a result of 2^1024 or more is [OverflowError]. *)
Definition int_to_float (z : Z) : result Z :=
  let a := Z.abs z in
  if (a <? 2 ^ 53)%Z then Ok z
  else
    let k := (Z.log2 a + 1 - 53)%Z in
    let q := (a / 2 ^ k)%Z in
    let r := (a mod 2 ^ k)%Z in
    let half := (2 ^ (k - 1))%Z in
    let q' := if ((half <? r) || ((r =? half) && Z.odd q))%Z
              then (q + 1)%Z else q in
    let v := (q' * 2 ^ k)%Z in
    if (2 ^ 1024 <=? v)%Z then Raise OverflowError
    else Ok (Z.sgn z * v)%Z.

(** The number of tenths nearest to [m * 2^e], ties to even. *)
Definition tenths (m : positive) (e : Z) : N :=
  if (0 <=? e)%Z then (Npos m * 10 * 2 ^ Z.to_N e)%N
  else
    let d := (2 ^ Z.to_N (- e))%N in
    let n := (Npos m * 10)%N in
    let q := (n / d)%N in
    let r := (n mod d)%N in
    if ((d <? 2 * r) || ((2 * r =? d) && N.odd q))%N then (q + 1)%N else q.

(** [format(f, ".1f")] for a [float]: the exact value of the double,
    correctly rounded to one decimal place; the sign is kept on a zero. *)
Definition format_1f_float (f : spec_float) : pystr :=
  match f with
  | S754_zero s => sign_str s ++ lit "0.0"
  | S754_infinity s => sign_str s ++ lit "inf"
  | S754_nan => lit "nan"
  | S754_finite s m e =>
      let t := tenths m e in
      sign_str s ++ digits (t / 10) ++ lit "." ++ digits (t mod 10)
  end.

(** [format(x, ".1f")] for a number: an [int] is converted with [float()]
    first. *)
Definition format_1f (x : number) : result pystr :=
  match x with
  | NInt z =>
      v <- int_to_float z ;;
      Ok (sign_str (v <? 0)%Z ++ digits (Z.abs_N v) ++ lit ".0")
  | NFloat f => Ok (format_1f_float f)
  end.


(** ** URL encoding *)

(** The bytes [urllib.parse.quote] never escapes: letters, digits and
    [_.-~]. *)
Definition always_safe (b : N) : bool :=
  ((65 <=? b) && (b <=? 90) || (97 <=? b) && (b <=? 122)
   || (48 <=? b) && (b <=? 57)
   || (b =? 95) || (b =? 46) || (b =? 45) || (b =? 126))%N.

Definition hex_digit (n : N) : char :=
  if (n <? 10)%N then (48 + n)%N else (55 + n)%N.

Definition quote_byte (b : N) : pystr :=
  if (b =? 32)%N then lit "+"
  else if always_safe b then [b]
  else 37%N :: hex_digit (b / 16) :: [hex_digit (b mod 16)].

(** [quote_plus(s)] *)
Definition quote_plus (s : pystr) : result pystr :=
  bs <- encode_utf8 s ;; Ok (flat_map quote_byte bs).

(** [urlencode(params)] for a dictionary of strings. *)
Fixpoint urlencode (params : list (pystr * pystr)) : result pystr :=
  match params with
  | [] => Ok []
  | (k, v) :: rest =>
      k' <- quote_plus k ;;
      v' <- quote_plus v ;;
      match rest with
      | [] => Ok (k' ++ lit "=" ++ v')
      | _ => r <- urlencode rest ;; Ok (k' ++ lit "=" ++ v' ++ lit "&" ++ r)
      end
  end.

(** ** Configuration and the outbound call *)

(** The module-level values read from the environment at start-up. *)
Record config : Type := {
  RAINFOREST_API_KEY : option pystr;
  AMAZON_DOMAIN : pystr
}.

Definition DEFAULT_QUERY : pystr := lit "latest xbox".

Definition RAINFOREST_ENDPOINT : pystr :=
  lit "https://api.rainforestapi.com/request".

(** What [urlopen] is called with. *)
Record request : Type := {
  url : pystr;
  headers : list (pystr * pystr);
  timeout : Z
}.

(** What the [try] block of [search_rainforest] observes: one of the three
    [except] clauses, in their order ([HTTPError] is a [URLError] and is
    tested first; a body that is not JSON is a [ValueError] and falls to
    the last clause), or the value [json.loads] returned. *)
Inductive fetched : Type :=
| HTTPError (code : Z) (reason : pystr)
| URLError (reason : pystr)
| OtherException (message : pystr)
| Parsed (data : pyval).

(** The dictionary [search_rainforest] returns. *)
Record SearchOutcome : Type := {
  error : option pystr;
  results : list dict
}.

(** The reply written to the client. *)
Record response : Type := {
  status : Z;
  response_headers : list (pystr * pystr);
  body : list N
}.

(** ** The page template *)

(** The text of the three template strings of [render_html], cut at the
    interpolated fields; doubled braces of the f-string are single. *)
Definition HEAD_BEFORE_QUERY : pystr :=
  lit "
<!doctype html>
<html lang=" ++ dq ++ lit "en" ++ dq ++ lit ">
<head>
  <meta charset=" ++ dq ++ lit "utf-8" ++ dq ++ lit " />
  <meta name=" ++ dq ++ lit "viewport" ++ dq ++ lit " content=" ++ dq ++ lit "width=device-width, initial-scale=1" ++ dq ++ lit " />
  <title>Rainforest Amazon Search</title>
  <style>
    :root {
      --bg: #0f172a; /* slate-900 */
      --card: #111827; /* gray-900 */
      --muted: #94a3b8; /* slate-400 */
      --fg: #e5e7eb; /* gray-200 */
      --accent: #22c55e; /* green-500 */
    }
    * { box-sizing: border-box; }
    body { margin: 0; font-family: ui-sans-serif, system-ui, -apple-system, Segoe UI, Roboto, Helvetica, Arial, Noto Sans, " ++ dq ++ lit "Apple Color Emoji" ++ dq ++ lit ", " ++ dq ++ lit "Segoe UI Emoji" ++ dq ++ lit "; background: linear-gradient(180deg, #0f172a, #0b1023 50%, #0f172a); color: var(--fg); }
    header { padding: 24px; text-align: center; border-bottom: 1px solid #1f2937; position: sticky; top: 0; backdrop-filter: blur(6px); background: rgba(15, 23, 42, 0.7); }
    h1 { margin: 0; font-size: 20px; letter-spacing: 0.3px; }
    .wrap { max-width: 1080px; margin: 24px auto; padding: 0 16px; }
    form { display: flex; gap: 8px; margin-top: 12px; justify-content: center; }
    input[type=text] { flex: 1; max-width: 520px; padding: 12px 14px; border-radius: 10px; border: 1px solid #374151; background: #0b1224; color: var(--fg); outline: none; }
    input[type=text]:focus { border-color: var(--accent); box-shadow: 0 0 0 3px rgba(34,197,94,.15); }
    button { padding: 12px 16px; border-radius: 10px; border: 1px solid #14532d; background: linear-gradient(180deg,#22c55e,#16a34a); color: white; cursor: pointer; }
    .grid { display: grid; grid-template-columns: repeat(auto-fit, minmax(240px, 1fr)); gap: 16px; margin-top: 20px; }
    .card { background: radial-gradient(1200px 600px at 20% -10%, rgba(34,197,94,0.08), transparent), var(--card); border: 1px solid #1f2937; border-radius: 14px; padding: 14px; transition: transform .12s ease, border-color .12s ease; }
    .card:hover { transform: translateY(-2px); border-color: #374151; }
    .title { font-size: 14px; line-height: 1.3; margin: 8px 0; min-height: 3.2em; }
    .meta { color: var(--muted); font-size: 12px; display: flex; gap: 10px; align-items: center; }
    .price { color: #fbbf24; font-weight: 600; }
    .imgwrap { display: flex; align-items: center; justify-content: center; background: #ffffff; border: 1px solid #1f2937; border-radius: 10px; height: 180px; overflow: hidden; }
    .imgwrap img { max-height: 160px; max-width: 100%; object-fit: contain; }
    footer { text-align: center; color: var(--muted); font-size: 12px; padding: 24px; }
    .error { color: #fecaca; background: #7f1d1d; border: 1px solid #b91c1c; padding: 10px 12px; border-radius: 10px; margin: 16px auto; max-width: 720px; }
  </style>
</head>
<body>
  <header>
    <h1>Rainforest Amazon Search</h1>
    <form method=" ++ dq ++ lit "GET" ++ dq ++ lit " action=" ++ dq ++ lit "/" ++ dq ++ lit ">
      <input type=" ++ dq ++ lit "text" ++ dq ++ lit " name=" ++ dq ++ lit "q" ++ dq ++ lit " placeholder=" ++ dq ++ lit "Search Amazon" ++ ellipsis ++ dq ++ lit " value=" ++ dq.

Definition HEAD_AFTER_QUERY : pystr :=
  dq ++ lit " />
      <button type=" ++ dq ++ lit "submit" ++ dq ++ lit ">Search</button>
    </form>
  </header>
  <div class=" ++ dq ++ lit "wrap" ++ dq ++ lit ">
".

Definition CARD_0 : pystr :=
  lit "
                <a class=" ++ dq ++ lit "card" ++ dq ++ lit " href=" ++ dq.

Definition CARD_1 : pystr :=
  dq ++ lit " target=" ++ dq ++ lit "_blank" ++ dq ++ lit " rel=" ++ dq ++ lit "noopener noreferrer" ++ dq ++ lit ">
                  <div class=" ++ dq ++ lit "imgwrap" ++ dq ++ lit ">".

Definition CARD_2 : pystr :=
  lit "</div>
                  <div class=" ++ dq ++ lit "title" ++ dq ++ lit ">".

Definition CARD_3 : pystr :=
  lit "</div>
                  <div class=" ++ dq ++ lit "meta" ++ dq ++ lit ">
                    <span class=" ++ dq ++ lit "price" ++ dq ++ lit ">".

Definition CARD_4 : pystr :=
  lit "</span>
                    <span>ASIN: ".

Definition CARD_5 : pystr :=
  lit "</span>
                    ".

Definition CARD_6 : pystr :=
  lit "
                  </div>
                </a>
                ".

Definition TAIL_BEFORE_DOMAIN : pystr :=
  lit "
  </div>
  <footer>
    Powered by Rainforest API " ++ bullet ++ lit " Domain: ".

Definition TAIL_AFTER_DOMAIN : pystr :=
  lit "
  </footer>
</body>
</html>
".


Definition BANNER_OPEN : pystr :=
  lit "<div class=" ++ dq ++ lit "error" ++ dq ++ lit ">".

Definition NO_RESULTS : pystr :=
  lit "<p class=" ++ dq ++ lit "meta" ++ dq ++ lit ">No results found.</p>".

Definition GRID_OPEN : pystr :=
  lit "<div class=" ++ dq ++ lit "grid" ++ dq ++ lit ">".

Definition DIV_CLOSE : pystr := lit "</div>".

Definition NO_IMAGE : pystr :=
  lit "<div style=" ++ dq ++ lit "height:1px" ++ dq ++ lit "></div>".

(** [s.startswith(p)] *)
Fixpoint starts_with (p s : pystr) : bool :=
  match p, s with
  | [], _ => true
  | a :: p', b :: s' => N.eqb a b && starts_with p' s'
  | _ :: _, [] => false
  end.

Section Server.

(** [repr] of a [float], a [list] or a [dict], which [str] and an f-string
    field use for these values: CPython's, not part of this program. *)
Variable py_repr : pyval -> pystr.

(** [str(v)], which is also [format(v, "")]. *)
Definition py_str (v : pyval) : pystr :=
  match v with
  | PNone => lit "None"
  | PBool b => lit (if b then "True" else "False")
  | PInt z => str_int z
  | PStr s => s
  | PFloat _ | PList _ | PDict _ => py_repr v
  end.

(** ** search_rainforest *)

(** Lines 87 to 91 and 99: the price of one raw item. *)
Definition resolve_price (item : dict) : result pyval :=
  let price_raw :=
    match get item (lit "price") with
    | PDict p => get p (lit "raw")
    | _ => PNone
    end in
  price_raw <-
    (if negb (truthy price_raw)
        && is_list (get item (lit "prices"))
        && truthy (get item (lit "prices"))
     then
       match get item (lit "prices") with
       | PList (first :: _) => p <- dict_of first ;; Ok (get p (lit "raw"))
       | _ => Raise IndexError
       end
     else Ok price_raw) ;;
  Ok (por price_raw (PStr [])).

(** The body of the loop of [search_rainforest]: one raw item to one
    result dictionary. *)
Definition normalize (raw : pyval) : result dict :=
  item <- dict_of raw ;;
  let title := por (get item (lit "title")) (PStr (lit "(no title)")) in
  let asin := por (get item (lit "asin")) (PStr []) in
  let link :=
    por (get item (lit "link"))
        (if truthy asin
         then PStr (lit "https://www.amazon.com/dp/" ++ py_str asin)
         else PStr []) in
  let img := por (get item (lit "image")) (PStr []) in
  price <- resolve_price item ;;
  Ok [ (lit "title", title);
       (lit "asin", asin);
       (lit "link", link);
       (lit "image", img);
       (lit "price", price);
       (lit "rating", get item (lit "rating"));
       (lit "ratings_total", get item (lit "ratings_total")) ].

(** [raw_results[:max_items]] as the sequence the loop runs over: a list
    gives its items and a string its characters; the other values cannot
    be subscripted, and a dictionary cannot be sliced ([TypeError] up to
    Python 3.11, [KeyError] since). *)
Definition sliced (raw_results : pyval) (max_items : Z) : result (list pyval) :=
  match raw_results with
  | PList l => Ok (slice_to max_items l)
  | PStr s => Ok (map (fun c => PStr [c]) (slice_to max_items s))
  | _ => Raise TypeError
  end.

(** Lines 78 to 103. *)
Definition clean (data : pyval) (max_items : Z) : result (list dict) :=
  d <- dict_of data ;;
  items <- sliced (get_default d (lit "search_results") (PList [])) max_items ;;
  map_result normalize items.

Definition failed (message : pystr) : SearchOutcome :=
  {| error := Some message; results := [] |}.

(** [search_rainforest(query, max_items)], with the requests it sent. *)
Definition search_rainforest (cfg : config) (urlopen : request -> fetched)
    (query : pystr) (max_items : Z) : list request * result SearchOutcome :=
  match RAINFOREST_API_KEY cfg with
  | None | Some [] =>
      ([], Ok (failed (lit "Missing RAINFOREST_API_KEY environment variable.")))
  | Some key =>
      match urlencode [ (lit "api_key", key);
                        (lit "type", lit "search");
                        (lit "amazon_domain", AMAZON_DOMAIN cfg);
                        (lit "search_term", query) ] with
      | Raise e => ([], Raise e)
      | Ok params =>
          let req := {| url := RAINFOREST_ENDPOINT ++ lit "?" ++ params;
                        headers := [(lit "User-Agent",
                                     lit "rainforest-quick-demo/1.0")];
                        timeout := 15 |} in
          ([req],
           match urlopen req with
           | HTTPError code reason =>
               Ok (failed (lit "HTTPError " ++ str_int code
                           ++ lit ": " ++ reason))
           | URLError reason => Ok (failed (lit "Network error: " ++ reason))
           | OtherException message =>
               Ok (failed (lit "Unexpected error: " ++ message))
           | Parsed data =>
               cleaned <- clean data max_items ;;
               Ok {| results := cleaned; error := None |}
           end)
      end
  end.

(** ** render_html *)

(** [html.escape(v)]: it calls [v.replace], which only a [str] has. *)
Definition html_escape (v : pyval) : result pystr :=
  match v with
  | PStr s => Ok (escape s)
  | _ => Raise AttributeError
  end.

(** Lines 173 to 177. *)
Definition rating_text (rating ratings_total : pyval) : result pystr :=
  match as_number rating, as_int ratings_total with
  | Some x, Some n =>
      r <- format_1f x ;;
      Ok (lit "<span>" ++ star ++ lit " " ++ r ++ lit "</span> <span>("
          ++ format_comma n ++ lit ")</span>")
  | _, _ => Ok []
  end.

(** The body of the loop of [render_html]: one card. *)
Definition render_card (r : dict) : result pystr :=
  let title := escape (py_str (get_default r (lit "title") (PStr []))) in
  let asin := escape (py_str (get_default r (lit "asin") (PStr []))) in
  let link := por (get r (lit "link")) (PStr (lit "#")) in
  let image := por (get r (lit "image")) (PStr []) in
  let price := escape (py_str (get_default r (lit "price") (PStr []))) in
  rating_text <- rating_text (get r (lit "rating"))
                             (get r (lit "ratings_total")) ;;
  img_html <-
    (if truthy image
     then src <- html_escape image ;;
          Ok (lit "<img src=" ++ dq ++ src ++ dq ++ lit " alt=" ++ dq
              ++ title ++ dq ++ lit ">")
     else Ok NO_IMAGE) ;;
  href <- html_escape link ;;
  Ok (CARD_0 ++ href ++ CARD_1 ++ img_html ++ CARD_2 ++ title ++ CARD_3
      ++ price ++ CARD_4 ++ asin ++ CARD_5 ++ rating_text ++ CARD_6).

(** The [if error:] block. *)
Definition banner (error : option pystr) : pystr :=
  match error with
  | Some (c :: e) => BANNER_OPEN ++ escape (c :: e) ++ DIV_CLOSE
  | _ => []
  end.

(** The [if not results: ... else: ...] block. *)
Definition listing (results : list dict) : result pystr :=
  match results with
  | [] => Ok NO_RESULTS
  | _ =>
      cards <- map_result render_card results ;;
      Ok (GRID_OPEN ++ List.concat cards ++ DIV_CLOSE)
  end.

(** The document before it is encoded. *)
Definition render_text (cfg : config) (query : pystr) (results : list dict)
    (error : option pystr) : result pystr :=
  let head := HEAD_BEFORE_QUERY ++ escape query ++ HEAD_AFTER_QUERY in
  body <- listing results ;;
  let tail := TAIL_BEFORE_DOMAIN ++ escape (AMAZON_DOMAIN cfg)
              ++ TAIL_AFTER_DOMAIN in
  Ok (head ++ (banner error ++ body) ++ tail).

(** [render_html(query, results, error)] *)
Definition render_html (cfg : config) (query : pystr) (results : list dict)
    (error : option pystr) : result (list N) :=
  text <- render_text cfg query results error ;;
  encode_utf8 text.

(** ** Handler.do_GET *)

(** Line 218, on the dictionary [parse_qs] returned. *)
Definition effective_query (qs : list (pystr * list pystr)) : result pystr :=
  let values :=
    match lookup (lit "q") qs with
    | Some vs => vs
    | None => [DEFAULT_QUERY]
    end in
  match values with
  | [] => Raise IndexError
  | v :: _ =>
      match strip v with
      | [] => Ok DEFAULT_QUERY
      | q => Ok q
      end
  end.

(** Lines 220 to 227: the page for an effective query. *)
Definition serve (cfg : config) (urlopen : request -> fetched)
    (query : pystr) : list request * result response :=
  let (sent, payload) := search_rainforest cfg urlopen query 10 in
  (sent,
   payload <- payload ;;
   html_bytes <- render_html cfg query (results payload) (error payload) ;;
   Ok {| status := 200;
         response_headers :=
           [(lit "Content-Type", lit "text/html; charset=utf-8");
            (lit "Cache-Control", lit "no-store")];
         body := html_bytes |}).

(** [do_GET], on the request path and on [parse_qs(urlparse(path).query)],
    which the library computes. *)
Definition do_GET (cfg : config) (urlopen : request -> fetched)
    (path : pystr) (qs : list (pystr * list pystr))
    : list request * result response :=
  if starts_with (lit "/healthz") path then
    ([], Ok {| status := 200;
               response_headers :=
                 [(lit "Content-Type", lit "text/plain; charset=utf-8")];
               body := lit "ok" |})
  else
    match effective_query qs with
    | Raise e => ([], Raise e)
    | Ok query => serve cfg urlopen query
    end.

(** ** Notions the properties are stated with *)

(** The [price] entry of the result dictionary of one raw item. *)
Definition normalized_price (raw : pyval) : result pyval :=
  r <- normalize raw ;; Ok (get r (lit "price")).

(** The [raw] entry under [price], when [price] is an object. *)
Definition primary_price (item : dict) : pyval :=
  match get item (lit "price") with
  | PDict p => get p (lit "raw")
  | _ => PNone
  end.

(** The one shape of a raw item the loop cannot take: a non-empty [prices]
    list whose first entry is not an object. *)
Definition prices_well_formed (item : dict) : Prop :=
  match get item (lit "prices") with
  | PList (first :: _) => is_dict first = true
  | _ => True
  end.

End Server.

(** The price rule as the specification words it: the nested [raw] string
    of [price] whenever [price] is an object, otherwise that of the first
    entry of [prices], otherwise the empty string. *)
Definition raw_string (p : dict) : pyval :=
  match get p (lit "raw") with
  | PStr s => PStr s
  | _ => PStr []
  end.

Definition price_as_specified (item : dict) : pyval :=
  match get item (lit "price") with
  | PDict p => raw_string p
  | _ =>
      match get item (lit "prices") with
      | PList (PDict p :: _) => raw_string p
      | _ => PStr []
      end
  end.

(** [t] is [s] with the white space at both ends removed. *)
Definition Trimmed (s t : pystr) : Prop :=
  exists l r,
    s = l ++ t ++ r
    /\ Forall (fun c => is_space c = true) l
    /\ Forall (fun c => is_space c = true) r
    /\ (forall c t', t = c :: t' -> is_space c = false)
    /\ (forall c t', t = t' ++ [c] -> is_space c = false).

(** The effective query as the specification words it, for the first value
    of the parameter [q] when there is one. *)
Definition EffectiveQuery (input : option pystr) (q : pystr) : Prop :=
  match input with
  | None => q = DEFAULT_QUERY
  | Some v =>
      exists t, Trimmed v t
                /\ q = match t with [] => DEFAULT_QUERY | _ => t end
  end.

(** The result dictionary of an item object, and its seven entries. *)
Definition result_dict (title asin link image price rating ratings_total
    : pyval) : dict :=
  [ (lit "title", title);
    (lit "asin", asin);
    (lit "link", link);
    (lit "image", image);
    (lit "price", price);
    (lit "rating", rating);
    (lit "ratings_total", ratings_total) ].

(** [needle in hay], for strings and for bytes. *)
Fixpoint occurs (needle hay : list N) : bool :=
  starts_with needle hay
  || match hay with
     | [] => false
     | _ :: hay' => occurs needle hay'
     end.

(** [w] and [s] agree as far as the shorter of the two goes. *)
Fixpoint compat (w s : list N) : bool :=
  match w, s with
  | a :: w', b :: s' => N.eqb a b && compat w' s'
  | _, _ => true
  end.

(** No place of [s] starts an occurrence of [w], whole or cut short by
    the end of [s]: what makes the absence of [w] survive concatenation. *)
Fixpoint free (w s : list N) : bool :=
  match s with
  | [] => true
  | _ :: s' => negb (compat w s) && free w s'
  end.

Definition ascii_only (w : list N) : bool :=
  forallb (fun c => (c <? 128)%N) w.

(** The three characters that open and close tags and attribute values. *)
Definition markup (c : N) : bool :=
  ((c =? 60) || (c =? 62) || (c =? 34))%N.

(** The markup characters of a text, in order. *)
Definition skeleton (s : list N) : list N := filter markup s.

(** The card template with every field left empty. *)
Definition card_frame (with_image with_rating : bool) : pystr :=
  CARD_0 ++ CARD_1
  ++ (if with_image
      then lit "<img src=" ++ dq ++ dq ++ lit " alt=" ++ dq ++ dq ++ lit ">"
      else NO_IMAGE)
  ++ CARD_2 ++ CARD_3 ++ CARD_4 ++ CARD_5
  ++ (if with_rating
      then lit "<span>" ++ star ++ lit " </span> <span>()</span>"
      else [])
  ++ CARD_6.

(** The page template with every field left empty, for a page with or
    without banner and with the given cards. *)
Definition page_frame (with_banner : bool) (cards : list (bool * bool))
    : pystr :=
  HEAD_BEFORE_QUERY ++ HEAD_AFTER_QUERY
  ++ (if with_banner then BANNER_OPEN ++ DIV_CLOSE else [])
  ++ match cards with
     | [] => NO_RESULTS
     | _ =>
         GRID_OPEN
         ++ flat_map (fun c => card_frame (fst c) (snd c)) cards
         ++ DIV_CLOSE
     end
  ++ TAIL_BEFORE_DOMAIN ++ TAIL_AFTER_DOMAIN.

(** Which of the two optional parts a card has. *)
Definition card_shape (r : dict) : bool * bool :=
  (truthy (por (get r (lit "image")) (PStr [])),
   is_int_or_float (get r (lit "rating"))
   && is_int (get r (lit "ratings_total"))).

Definition has_banner (error : option pystr) : bool :=
  match error with
  | Some (_ :: _) => true
  | _ => false
  end.

(** The start of every rating segment. *)
Definition RATING_OPEN : pystr := lit "<span>" ++ star ++ lit " ".

(** The literal pieces of the page, of a card and of a rating segment. *)
Definition page_pieces : list pystr :=
  [ HEAD_BEFORE_QUERY; HEAD_AFTER_QUERY; GRID_OPEN; DIV_CLOSE;
    TAIL_BEFORE_DOMAIN; TAIL_AFTER_DOMAIN ].

Definition card_pieces : list pystr :=
  [ CARD_0; CARD_1; CARD_2; CARD_3; CARD_4; CARD_5; CARD_6; NO_IMAGE;
    lit "<img src="; dq; lit " alt="; lit ">" ].

Definition rating_pieces : list pystr :=
  [ lit "<span>"; star; lit " "; lit "</span> <span>("; lit ")</span>" ].

(** ** _load_dotenv and the start-up configuration *)

(** [os.environ], on POSIX: names are case-sensitive and a name is held
    once. *)
Definition environ := list (pystr * pystr).

(** [c in s] for one character. *)
Definition has_char (c : char) (s : pystr) : bool := existsb (N.eqb c) s.

(** [k in os.environ] *)
Definition defined (k : pystr) (env : environ) : bool :=
  match lookup k env with Some _ => true | None => false end.

(** [s.split(sep, 1)] for a one-character separator that occurs in [s]:
    what is before its first occurrence and what is after. *)
Fixpoint split_once (sep : char) (s : pystr) : pystr * pystr :=
  match s with
  | [] => ([], [])
  | c :: s' =>
      if N.eqb c sep then ([], s')
      else let (a, b) := split_once sep s' in (c :: a, b)
  end.

(** [s.strip(chars)], for the set of characters [p] accepts. *)
Fixpoint lstrip_by (p : char -> bool) (s : pystr) : pystr :=
  match s with
  | c :: s' => if p c then lstrip_by p s' else s
  | [] => []
  end.

Definition strip_by (p : char -> bool) (s : pystr) : pystr :=
  rev (lstrip_by p (rev (lstrip_by p s))).

(** What [os.fsencode] cannot encode: a surrogate other than those the
    [surrogateescape] handler maps back to a byte. *)
Definition unencodable (c : char) : bool :=
  ((55296 <=? c) && (c <=? 57343) && negb ((56448 <=? c) && (c <=? 56575))
   || (1114112 <=? c))%N.

(** [os.environ[k] = v]: both strings are encoded, then [putenv] refuses
    an embedded null character (and an empty name or one with [=], which
    [_load_dotenv] never passes). *)
Fixpoint assign (k v : pystr) (env : environ) : environ :=
  match env with
  | [] => [(k, v)]
  | (k', v') :: env' =>
      if str_eqb k' k then (k, v) :: env' else (k', v') :: assign k v env'
  end.

Definition setenv (k v : pystr) (env : environ) : result environ :=
  if existsb unencodable k || existsb unencodable v
  then Raise UnicodeEncodeError
  else if has_char 0%N k || has_char 0%N v then Raise ValueError
  else Ok (assign k v env).

(** Lines 28 to 33: the name and value of one line of the file, [None]
    where the loop says [continue]. *)
Definition dotenv_line (line : pystr) : option (pystr * pystr) :=
  let line := strip line in
  match line with
  | [] => None
  | _ =>
      if starts_with (lit "#") line || negb (has_char 61%N line) then None
      else
        let (k, v) := split_once 61%N line in
        Some (strip k,
              strip_by (N.eqb 39) (strip_by (N.eqb 34) (strip v)))
  end.

(** Lines 27 to 35: the loop over the lines the file yields.  An
    exception ends it, and line 36 swallows the exception: what was set
    before stays set. *)
Fixpoint load_lines (lines : list pystr) (env : environ) : environ :=
  match lines with
  | [] => env
  | line :: rest =>
      match dotenv_line line with
      | Some (c :: k, v) =>
          if defined (c :: k) env then load_lines rest env
          else
            match setenv (c :: k) v env with
            | Ok env' => load_lines rest env'
            | Raise _ => env
            end
      | _ => load_lines rest env
      end
  end.

(** [_load_dotenv()], on the lines of the file ([None] when there is no
    file; the lines read before a read error when there is one). *)
Definition _load_dotenv (file : option (list pystr)) (env : environ)
    : environ :=
  match file with
  | None => env
  | Some lines => load_lines lines env
  end.

(** Lines 44 and 46: the two settings the request handling reads. *)
Definition startup_config (env : environ) : config :=
  {| RAINFOREST_API_KEY := lookup (lit "RAINFOREST_API_KEY") env;
     AMAZON_DOMAIN :=
       match lookup (lit "AMAZON_DOMAIN") env with
       | Some d => d
       | None => lit "amazon.com"
       end |}.

(** Neither the first nor the last character of [t] is one [p]
    accepts. *)
Definition clean_ends (p : char -> bool) (t : pystr) : Prop :=
  (forall c t', t = c :: t' -> p c = false)
  /\ (forall c t', t = t' ++ [c] -> p c = false).

(** [t] is [s] without the characters of [p] at its two ends. *)
Definition TrimmedBy (p : char -> bool) (s t : pystr) : Prop :=
  exists l r,
    s = l ++ t ++ r
    /\ Forall (fun c => p c = true) l
    /\ Forall (fun c => p c = true) r
    /\ clean_ends p t.

(** A name as a [.env] file is meant to have it: not empty, no [=], no
    white space at its ends, not starting a comment. *)
Definition plain_name (k : pystr) : Prop :=
  k <> [] /\ has_char 61%N k = false /\ strip k = k
  /\ starts_with (lit "#") k = false.

(** A value that loses nothing when read: no white space and no quote
    at its ends. *)
Definition plain_value (v : pystr) : Prop :=
  strip v = v /\ strip_by (N.eqb 34) v = v /\ strip_by (N.eqb 39) v = v.

Definition newline : pystr := [10%N].

(** Characters UTF-8 can encode. *)
Definition encodable (s : pystr) : bool :=
  forallb (fun c => (c <? 1114112)%N
                    && negb ((55296 <=? c) && (c <=? 57343))%N) s.

(** [w] is a part of [s]. *)
Definition part (w s : list N) : Prop := exists a b, s = a ++ w ++ b.

(** The bytes [out] hold the text [s], encoded. *)
Definition shows (out : list N) (s : pystr) : Prop :=
  exists bs, encode_utf8 s = Ok bs /\ part bs out.

(** The elements a result is shown in. *)
Definition TITLE_OPEN : pystr :=
  lit "<div class=" ++ dq ++ lit "title" ++ dq ++ lit ">".

Definition PRICE_OPEN : pystr :=
  lit "<span class=" ++ dq ++ lit "price" ++ dq ++ lit ">".

Definition ASIN_OPEN : pystr := lit "<span>ASIN: ".

Definition VALUE_OPEN : pystr := lit " value=" ++ dq.

(** The error text of each [except] clause, lines 72 to 76. *)
Definition failure_message (f : fetched) : option pystr :=
  match f with
  | HTTPError code reason =>
      Some (lit "HTTPError " ++ str_int code ++ lit ": " ++ reason)
  | URLError reason => Some (lit "Network error: " ++ reason)
  | OtherException message => Some (lit "Unexpected error: " ++ message)
  | Parsed _ => None
  end.

(** What [quote_plus] leaves in a value: unreserved characters, [+] and
    [%]. *)
Definition url_safe (c : char) : bool :=
  (always_safe c || (c =? 43) || (c =? 37))%N.

(** A number and an integer of a JSON document, as the specification
    reads "numeric" and "an integer"; and the two booleans, which
    [json.loads] gives as [True] and [False]. *)
Definition json_number (v : pyval) : bool :=
  match v with PInt _ | PFloat _ => true | _ => false end.

Definition json_integer (v : pyval) : bool :=
  match v with PInt _ => true | _ => false end.

Definition json_boolean (v : pyval) : bool :=
  match v with PBool _ => true | _ => false end.

(** A name and a value [os.environ] accepts: see [setenv]. *)
Definition settable (k v : pystr) : bool :=
  negb (existsb unencodable k || existsb unencodable v)
  && negb (has_char 0%N k || has_char 0%N v).

(** A line the loop gets past whatever the environment holds, and that
    gives the name [k] no value: one it skips, one with an empty name, or
    one that sets another name to a value [os.environ] accepts. *)
Definition passes_by (k : pystr) (line : pystr) : Prop :=
  match dotenv_line line with
  | None | Some ([], _) => True
  | Some (k', v') => k' <> k /\ settable k' v' = true
  end.

(** The search field of the form, up to its value and after it. *)
Definition SEARCH_FIELD_OPEN : pystr :=
  lit "<input type=" ++ dq ++ lit "text" ++ dq ++ lit " name=" ++ dq
  ++ lit "q" ++ dq ++ lit " placeholder=" ++ dq ++ lit "Search Amazon"
  ++ ellipsis ++ dq ++ lit " value=" ++ dq.

Definition SEARCH_FIELD_CLOSE : pystr := dq ++ lit " />".

(** ** Sample data *)

(** A stand-in for CPython's [repr] where a closed term is needed. *)
Definition repr_stub (v : pyval) : pystr := lit "?".

Definition with_key : config :=
  {| RAINFOREST_API_KEY := Some (lit "demo");
     AMAZON_DOMAIN := lit "amazon.com" |}.

Definition without_key : config :=
  {| RAINFOREST_API_KEY := None; AMAZON_DOMAIN := lit "amazon.com" |}.

Definition raw_price (s : pystr) : pyval := PDict [(lit "raw", PStr s)].

(** [{price: {raw: "$10"}, prices: [{raw: "$5"}]}] *)
Definition item_both : dict :=
  [ (lit "price", raw_price (lit "$10"));
    (lit "prices", PList [raw_price (lit "$5")]) ].

(** [{prices: [{raw: "$5"}]}] *)
Definition item_prices_only : dict :=
  [ (lit "prices", PList [raw_price (lit "$5")]) ].

(** [{price: {raw: ""}, prices: [{raw: "$5"}]}] *)
Definition item_empty_price : dict :=
  [ (lit "price", raw_price []);
    (lit "prices", PList [raw_price (lit "$5")]) ].

(** [{prices: [5]}] *)
Definition item_bad_prices : dict :=
  [ (lit "prices", PList [PInt 5]) ].

(** [{price: {raw: "$10"}, prices: [5]}]: the item above with a price. *)
Definition item_priced_bad_prices : dict :=
  [ (lit "price", raw_price (lit "$10"));
    (lit "prices", PList [PInt 5]) ].

(** Twenty-five raw items titled 0 to 24. *)
Definition numbered (n : nat) : pyval :=
  PDict [(lit "title", PStr (digits (N.of_nat n)))].

Definition twenty_five : list pyval := map numbered (seq 0 25).

(** A result whose title is a tag, rated 4.5 by 12345 buyers. *)
Definition card_script : dict :=
  [ (lit "title", PStr (lit "<script>"));
    (lit "rating", PFloat (S754_finite false 9 (-1)));
    (lit "ratings_total", PInt 12345) ].

(** A result whose rating and total are the JSON [true]. *)
Definition card_booleans : dict :=
  [ (lit "rating", PBool true); (lit "ratings_total", PBool true) ].

Definition page_script : result (list N) :=
  render_html repr_stub with_key (lit "<q>") [card_script]
    (Some (lit "<e>")).

Definition page_failed : result (list N) :=
  render_html repr_stub with_key DEFAULT_QUERY []
    (Some (lit "Network error: timed out")).

(** A value [html.escape] accepts where [render_html] passes it one: a
    string, or a false value that [or] replaces by a string. *)
Definition str_or_falsy (v : pyval) : bool :=
  match v with
  | PStr _ => true
  | _ => negb (truthy v)
  end.

(** An environment that has the credential; a file that gives another
    one and a port; a file of lines that set nothing. *)
Definition environ_with_key : environ :=
  [(lit "RAINFOREST_API_KEY", lit "from-environment")].

Definition file_key_and_port : list pystr :=
  [ lit "RAINFOREST_API_KEY=from-file" ++ newline;
    lit "PORT=9000" ++ newline;
    lit "PORT=9001" ++ newline ].

Definition file_of_comments : list pystr :=
  [ lit "# settings" ++ newline; newline; lit "no equals sign" ++ newline ].

(** A network on which every request times out. *)
Definition timed_out (_ : request) : fetched := URLError (lit "timed out").

(** [parse_qs] of [?q=++] (two spaces) and of [?q=nintendo+switch]. *)
Definition qs_blank : list (pystr * list pystr) :=
  [(lit "q", [lit "  "])].

Definition qs_switch : list (pystr * list pystr) :=
  [(lit "q", [lit "nintendo switch"])].

(** [parse_qs] of [?q=++nintendo+switch+] (spaces around the words). *)
Definition qs_padded : list (pystr * list pystr) :=
  [(lit "q", [lit "  nintendo switch "])].

(** A file with a line that cannot be set (a null character in the
    value) before the line for [C], and one with that line last. *)
Definition file_bad_middle : list pystr :=
  [ lit "A=1" ++ newline;
    lit "B=x" ++ [0%N] ++ lit "y" ++ newline;
    lit "C=3" ++ newline ].

Definition file_bad_last : list pystr :=
  [ lit "# settings" ++ newline; lit "A=1" ++ newline;
    lit "C=3" ++ newline; lit "C=4" ++ newline;
    lit "B=x" ++ [0%N] ++ lit "y" ++ newline ].

(** The reply of [do_GET] to that query when the fetch times out. *)
Definition reply_to_padded : list request * result response :=
  do_GET repr_stub with_key timed_out (lit "/") qs_padded.

Definition reply_to_padded_body : list N :=
  match snd reply_to_padded with
  | Ok resp => body resp
  | Raise _ => []
  end.

(** A reply of twenty-five items, for every request. *)
Definition reply_twenty_five (_ : request) : fetched :=
  Parsed (PDict [(lit "search_results", PList twenty_five)]).

(** The bytes of [page_script]. *)
Definition page_script_bytes : list N :=
  match page_script with
  | Ok out => out
  | Raise _ => []
  end.

(** The reply of [do_GET] to a search answered by twenty-five items. *)
Definition reply_to_switch : list request * result response :=
  do_GET repr_stub with_key reply_twenty_five (lit "/") qs_switch.

Definition reply_to_switch_body : list N :=
  match snd reply_to_switch with
  | Ok resp => body resp
  | Raise _ => []
  end.

(** * Properties *)

Section Properties.

Variable py_repr : pyval -> pystr.

(** ** The result monad and the loops *)

Lemma bind_Ok {A B} (r : result A) (k : A -> result B) (b : B) :
  bind r k = Ok b -> exists a, r = Ok a /\ k a = Ok b.
Proof.
  destruct r as [a|e]; simpl; intros H.
  - exists a. split; [reflexivity | exact H].
  - discriminate H.
Qed.

Lemma Ok_inj {A} (a b : A) : Ok a = Ok b -> a = b.
Proof. intros H. injection H as H. exact H. Qed.

Lemma map_result_Ok {A B} (f : A -> result B) (l : list A) (bs : list B) :
  map_result f l = Ok bs -> Forall2 (fun a b => f a = Ok b) l bs.
Proof.
  revert bs. induction l as [|a l IH]; simpl; intros bs H.
  - injection H as <-. constructor.
  - apply bind_Ok in H as (b & Hb & H).
    apply bind_Ok in H as (bs' & Hbs & H).
    injection H as <-. constructor; [exact Hb | apply IH, Hbs].
Qed.

Lemma map_result_total {A B} (f : A -> result B) (l : list A) :
  Forall (fun a => exists b, f a = Ok b) l ->
  exists bs, map_result f l = Ok bs.
Proof.
  induction 1 as [|a l [b Hb] _ [bs Hbs]]; simpl.
  - exists []. reflexivity.
  - exists (b :: bs). rewrite Hb. simpl. rewrite Hbs. reflexivity.
Qed.

Lemma Forall2_same_length {A B} (R : A -> B -> Prop) l l' :
  Forall2 R l l' -> List.length l = List.length l'.
Proof. induction 1; simpl; congruence. Qed.

Lemma slice_to_firstn {A} (stop : Z) (l : list A) :
  (0 <= stop)%Z ->
  slice_to stop l = firstn (Nat.min (List.length l) (Z.to_nat stop)) l.
Proof.
  intros H. unfold slice_to.
  destruct (Z.leb_spec 0 stop) as [_|Hneg]; [|lia].
  destruct (Nat.le_gt_cases (Z.to_nat stop) (List.length l)) as [Hle|Hgt].
  - rewrite Nat.min_r by exact Hle. reflexivity.
  - rewrite Nat.min_l by lia. rewrite firstn_all.
    apply firstn_all2. lia.
Qed.

Lemma sliced_length (v : pyval) (max_items : Z) (items : list pyval) :
  (0 <= max_items)%Z ->
  sliced v max_items = Ok items ->
  (List.length items <= Z.to_nat max_items)%nat.
Proof.
  intros Hm H. destruct v; simpl in H; try discriminate H;
    injection H as <-; rewrite slice_to_firstn by exact Hm.
  - rewrite length_map, length_firstn. lia.
  - rewrite length_firstn. lia.
Qed.

(** ** search_rainforest, case by case *)

(** Every outcome the function returns is either an error outcome with no
    results, or the cleaned list of a parsed reply. *)
Lemma search_rainforest_Ok cfg urlopen query max_items sent out :
  search_rainforest py_repr cfg urlopen query max_items = (sent, Ok out) ->
  (exists message,
      out = failed message
      /\ forall req data, sent = [req] -> urlopen req <> Parsed data)
  \/ (exists req data cleaned,
        sent = [req] /\ urlopen req = Parsed data
        /\ clean py_repr data max_items = Ok cleaned
        /\ out = {| error := None; results := cleaned |}).
Proof.
  unfold search_rainforest.
  destruct (RAINFOREST_API_KEY cfg) as [[|c key]|].
  - intros H. injection H as <- <-. left. eexists. split; [reflexivity|].
    intros req data H. discriminate H.
  - destruct (urlencode _) as [params|e]; [|discriminate].
    intros H. injection H as <- H.
    destruct (urlopen _) as [code reason|reason|message|data] eqn:Hnet.
    + injection H as <-. left. eexists. split; [reflexivity|].
      intros req data H. injection H as <-. rewrite Hnet. discriminate.
    + injection H as <-. left. eexists. split; [reflexivity|].
      intros req data H. injection H as <-. rewrite Hnet. discriminate.
    + injection H as <-. left. eexists. split; [reflexivity|].
      intros req data H. injection H as <-. rewrite Hnet. discriminate.
    + apply bind_Ok in H as (cleaned & Hc & H). injection H as <-.
      right. do 3 eexists. repeat split; eassumption.
  - intros H. injection H as <- <-. left. eexists. split; [reflexivity|].
    intros req data H. discriminate H.
Qed.

Lemma clean_Ok data max_items cleaned :
  clean py_repr data max_items = Ok cleaned ->
  exists d items,
    data = PDict d
    /\ sliced (get_default d (lit "search_results") (PList [])) max_items
       = Ok items
    /\ Forall2 (fun item r => normalize py_repr item = Ok r) items cleaned.
Proof.
  unfold clean. intros H.
  apply bind_Ok in H as (d & Hd & H).
  apply bind_Ok in H as (items & Hi & H).
  destruct data; try discriminate Hd. injection Hd as ->.
  exists d, items. repeat split; [exact Hi | apply map_result_Ok, H].
Qed.

(** The three [except] clauses: each failure of the fetch or of the parse
    becomes an outcome with no results and an error that names its class. *)
Lemma fetch_failures_are_outcomes cfg urlopen query max_items req r :
  search_rainforest py_repr cfg urlopen query max_items = ([req], r) ->
  (forall code reason, urlopen req = HTTPError code reason ->
     r = Ok (failed (lit "HTTPError " ++ str_int code ++ lit ": " ++ reason)))
  /\ (forall reason, urlopen req = URLError reason ->
        r = Ok (failed (lit "Network error: " ++ reason)))
  /\ (forall message, urlopen req = OtherException message ->
        r = Ok (failed (lit "Unexpected error: " ++ message))).
Proof.
  unfold search_rainforest.
  destruct (RAINFOREST_API_KEY cfg) as [[|c key]|]; try discriminate.
  destruct (urlencode _) as [params|e]; [|discriminate].
  intros H. injection H as <- <-.
  repeat split; intros; rewrite H; reflexivity.
Qed.

(** C7: without a credential (the variable unset, or set to the empty
    string) every query gets the fixed missing-credential outcome, with no
    results, and no request is sent. *)
Theorem missing_credential_short_circuits cfg urlopen query max_items :
  RAINFOREST_API_KEY cfg = None \/ RAINFOREST_API_KEY cfg = Some [] ->
  search_rainforest py_repr cfg urlopen query max_items
  = ([], Ok {| error :=
                 Some (lit "Missing RAINFOREST_API_KEY environment variable.");
               results := [] |}).
Proof.
  unfold search_rainforest. intros [H|H]; rewrite H; reflexivity.
Qed.

(** C4: for a bound that is not negative, an outcome never has more
    results than the bound, and the results of a parsed reply are the
    normalised first min(length, bound) raw items, in their order. *)
Theorem results_truncated_in_order cfg urlopen query max_items sent out :
  (0 <= max_items)%Z ->
  search_rainforest py_repr cfg urlopen query max_items = (sent, Ok out) ->
  (Z.of_nat (List.length (results out)) <= max_items)%Z
  /\ forall req d raw,
       sent = [req] ->
       urlopen req = Parsed (PDict d) ->
       get_default d (lit "search_results") (PList []) = PList raw ->
       let n := Nat.min (List.length raw) (Z.to_nat max_items) in
       List.length (results out) = n
       /\ Forall2 (fun item r => normalize py_repr item = Ok r)
            (firstn n raw) (results out).
Proof.
  intros Hm H.
  apply search_rainforest_Ok in H
    as [(message & -> & Hno)|(req & data & cleaned & -> & Hnet & Hc & ->)].
  - split; [simpl; lia|]. intros req d raw H Hnet.
    destruct (Hno _ _ H Hnet).
  - apply clean_Ok in Hc as (d & items & -> & Hs & Hall).
    pose proof (sliced_length _ Hm Hs) as Hlen.
    pose proof (Forall2_same_length Hall) as Heq.
    split; [simpl; lia|].
    intros req' d' raw H Hnet' Hraw n. injection H as <-.
    rewrite Hnet in Hnet'. injection Hnet' as <-.
    rewrite Hraw in Hs. simpl in Hs. injection Hs as <-.
    rewrite slice_to_firstn in Hall, Heq by exact Hm.
    simpl. split; [|exact Hall].
    rewrite <- Heq, length_firstn. subst n. lia.
Qed.

(** C1 does not hold of the code.  A reply whose body is the JSON array
    [[]], and a reply with one item whose [prices] list holds a number,
    both leave [search_rainforest] as an [AttributeError]: lines 78 to 103
    run outside the [try] block. *)
Theorem unexpected_shapes_raise :
  snd (search_rainforest py_repr with_key (fun _ => Parsed (PList []))
         DEFAULT_QUERY 10) = Raise AttributeError
  /\ snd (search_rainforest py_repr with_key
            (fun _ => Parsed (PDict [(lit "search_results",
                                      PList [PDict item_bad_prices])]))
            DEFAULT_QUERY 10) = Raise AttributeError.
Proof. split; reflexivity. Qed.

(** ** The loop body *)

Lemma get_absent (d : dict) (k : pystr) :
  lookup k d = None -> get d k = PNone.
Proof. unfold get, get_default. intros ->. reflexivity. Qed.

Lemma resolve_price_primary item :
  truthy (primary_price item) = true ->
  resolve_price item = Ok (primary_price item).
Proof.
  unfold resolve_price. fold (primary_price item). intros H.
  rewrite H. simpl. unfold por. rewrite H. reflexivity.
Qed.

Lemma resolve_price_fallback item p rest :
  truthy (primary_price item) = false ->
  get item (lit "prices") = PList (PDict p :: rest) ->
  resolve_price item = Ok (por (get p (lit "raw")) (PStr [])).
Proof.
  unfold resolve_price. fold (primary_price item). intros H Hp.
  rewrite H, Hp. reflexivity.
Qed.

Lemma resolve_price_default item :
  truthy (primary_price item) = false ->
  (forall first rest, get item (lit "prices") <> PList (first :: rest)) ->
  resolve_price item = Ok (PStr []).
Proof.
  unfold resolve_price. fold (primary_price item). intros H Hp.
  rewrite H. simpl.
  destruct (get item (lit "prices")) as [|b|z|f|s|[|first rest]|d];
    simpl; unfold por; rewrite ?H; try reflexivity.
  destruct (Hp first rest eq_refl).
Qed.

Lemma resolve_price_total item :
  prices_well_formed item -> exists v, resolve_price item = Ok v.
Proof.
  unfold prices_well_formed. intros Hw.
  destruct (truthy (primary_price item)) eqn:H.
  - eexists. apply resolve_price_primary, H.
  - destruct (get item (lit "prices")) as [|b|z|f|s|[|first rest]|d] eqn:Hp;
      try (eexists; apply resolve_price_default; [exact H|];
           intros x y; rewrite Hp; discriminate).
    destruct first; try discriminate Hw.
    eexists. eapply resolve_price_fallback; [exact H | exact Hp].
Qed.

Lemma normalized_price_dict item :
  normalized_price py_repr (PDict item) = resolve_price item.
Proof.
  unfold normalized_price, normalize. simpl.
  destruct (resolve_price item); reflexivity.
Qed.

Lemma result_dict_entries t a l i p r n :
  let d := result_dict t a l i p r n in
  get d (lit "title") = t /\ get d (lit "asin") = a
  /\ get d (lit "link") = l /\ get d (lit "image") = i
  /\ get d (lit "price") = p /\ get d (lit "rating") = r
  /\ get d (lit "ratings_total") = n.
Proof. repeat split. Qed.

Lemma normalize_dict item price :
  resolve_price item = Ok price ->
  normalize py_repr (PDict item)
  = Ok (result_dict
          (por (get item (lit "title")) (PStr (lit "(no title)")))
          (por (get item (lit "asin")) (PStr []))
          (por (get item (lit "link"))
             (if truthy (por (get item (lit "asin")) (PStr []))
              then PStr (lit "https://www.amazon.com/dp/"
                         ++ py_str py_repr
                              (por (get item (lit "asin")) (PStr [])))
              else PStr []))
          (por (get item (lit "image")) (PStr []))
          price
          (get item (lit "rating"))
          (get item (lit "ratings_total"))).
Proof. unfold normalize. simpl. intros ->. reflexivity. Qed.

Lemma normalize_total item :
  prices_well_formed item -> exists r, normalize py_repr (PDict item) = Ok r.
Proof.
  intros Hw. destruct (resolve_price_total item Hw) as [price Hprice].
  eexists. apply normalize_dict, Hprice.
Qed.

(** A reply whose items are objects of that shape is cleaned. *)
Lemma clean_total d raw max_items :
  get_default d (lit "search_results") (PList []) = PList raw ->
  Forall (fun v => exists item, v = PDict item /\ prices_well_formed item)
    (slice_to max_items raw) ->
  exists cleaned, clean py_repr (PDict d) max_items = Ok cleaned.
Proof.
  intros Hraw Hall. unfold clean. cbn [dict_of bind]. rewrite Hraw.
  cbn [sliced bind]. apply map_result_total.
  eapply Forall_impl; [|exact Hall].
  intros v (item & -> & Hw). apply normalize_total, Hw.
Qed.

(** Where the first entry of [prices] is read (no [price] with a true
    [raw] entry, and a non-empty [prices] list) and is not an object, the
    loop body fails. *)
Lemma resolve_price_raises item first rest :
  truthy (primary_price item) = false ->
  get item (lit "prices") = PList (first :: rest) ->
  is_dict first = false ->
  resolve_price item = Raise AttributeError.
Proof.
  unfold resolve_price. fold (primary_price item). intros H Hp Hfirst.
  rewrite H, Hp. destruct first; try reflexivity. discriminate Hfirst.
Qed.

(** C2 does not hold of the code.  The item [{prices: [5]}], which has no
    [price] field, leaves the loop body as an [AttributeError] (line 91:
    [item["prices"][0].get] on an [int]), while the same item with a
    [price] field is normalised: the absence of a field is what fails the
    operation.  So does every item object without a true [price.raw]
    whose [prices] is a list that starts with something else than an
    object.  The empty object does give the seven defaults. *)
Theorem absent_price_exposes_prices :
  normalize py_repr (PDict item_bad_prices) = Raise AttributeError
  /\ normalized_price py_repr (PDict item_priced_bad_prices)
     = Ok (PStr (lit "$10"))
  /\ (forall item first rest,
        truthy (primary_price item) = false ->
        get item (lit "prices") = PList (first :: rest) ->
        is_dict first = false ->
        normalize py_repr (PDict item) = Raise AttributeError)
  /\ normalize py_repr (PDict [])
     = Ok [ (lit "title", PStr (lit "(no title)"));
            (lit "asin", PStr []);
            (lit "link", PStr []);
            (lit "image", PStr []);
            (lit "price", PStr []);
            (lit "rating", PNone);
            (lit "ratings_total", PNone) ].
Proof.
  split; [reflexivity|]. split; [reflexivity|]. split; [|reflexivity].
  intros item first rest H Hp Hfirst. unfold normalize.
  cbn [dict_of bind].
  rewrite (@resolve_price_raises item first rest H Hp Hfirst). reflexivity.
Qed.

(** X19: apart from that shape, the loop body never fails.  The empty
    object gives the seven defaults; and every item object whose [prices]
    entry, when a non-empty list, starts with an object gives a result in
    which each absent field has its default. *)
Theorem normalize_total_with_defaults :
  normalize py_repr (PDict [])
  = Ok [ (lit "title", PStr (lit "(no title)"));
         (lit "asin", PStr []);
         (lit "link", PStr []);
         (lit "image", PStr []);
         (lit "price", PStr []);
         (lit "rating", PNone);
         (lit "ratings_total", PNone) ]
  /\ forall item,
       prices_well_formed item ->
       exists r,
         normalize py_repr (PDict item) = Ok r
         /\ (lookup (lit "title") item = None ->
             get r (lit "title") = PStr (lit "(no title)"))
         /\ (lookup (lit "asin") item = None -> get r (lit "asin") = PStr [])
         /\ (lookup (lit "link") item = None ->
             (lookup (lit "asin") item = None ->
              get r (lit "link") = PStr [])
             /\ (forall c a, get item (lit "asin") = PStr (c :: a) ->
                 get r (lit "link")
                 = PStr (lit "https://www.amazon.com/dp/" ++ c :: a)))
         /\ (lookup (lit "image") item = None ->
             get r (lit "image") = PStr [])
         /\ (lookup (lit "price") item = None ->
             lookup (lit "prices") item = None ->
             get r (lit "price") = PStr [])
         /\ (lookup (lit "rating") item = None ->
             get r (lit "rating") = PNone)
         /\ (lookup (lit "ratings_total") item = None ->
             get r (lit "ratings_total") = PNone).
Proof.
  split; [reflexivity|].
  intros item Hw.
  destruct (resolve_price_total item Hw) as [price Hprice].
  eexists. split; [apply normalize_dict, Hprice|].
  match goal with
  | |- context [get (result_dict ?t ?a ?l ?i ?p ?r ?n) _] =>
      destruct (result_dict_entries t a l i p r n)
        as (-> & -> & -> & -> & -> & -> & ->)
  end.
  repeat split.
  - intros H. rewrite (get_absent _ _ H). reflexivity.
  - intros H. rewrite (get_absent _ _ H). reflexivity.
  - intros H0. rewrite (get_absent _ _ H), (get_absent _ _ H0). reflexivity.
  - intros c a Ha. rewrite (get_absent _ _ H), Ha. reflexivity.
  - intros H. rewrite (get_absent _ _ H). reflexivity.
  - intros H1 H2.
    assert (Hd : resolve_price item = Ok (PStr [])).
    { apply resolve_price_default.
      - unfold primary_price. rewrite (get_absent _ _ H1). reflexivity.
      - intros x y. rewrite (get_absent _ _ H2). discriminate. }
    congruence.
  - intros H. apply get_absent, H.
  - intros H. apply get_absent, H.
Qed.

(** C3, as the code has it: the price is the [raw] entry of the [price]
    object when that entry is not empty; otherwise the [raw] entry of the
    first of a non-empty [prices] list, or the empty string when that is
    empty too; otherwise the empty string.  The first wins whenever it is
    not empty, as in the two examples. *)
Theorem price_resolution_order item :
  (truthy (primary_price item) = true ->
   normalized_price py_repr (PDict item) = Ok (primary_price item))
  /\ (truthy (primary_price item) = false ->
      forall p rest,
        get item (lit "prices") = PList (PDict p :: rest) ->
        normalized_price py_repr (PDict item)
        = Ok (por (get p (lit "raw")) (PStr [])))
  /\ (truthy (primary_price item) = false ->
      (forall first rest, get item (lit "prices") <> PList (first :: rest)) ->
      normalized_price py_repr (PDict item) = Ok (PStr []))
  /\ normalized_price py_repr (PDict item_both) = Ok (PStr (lit "$10"))
  /\ normalized_price py_repr (PDict item_prices_only)
     = Ok (PStr (lit "$5")).
Proof.
  rewrite !normalized_price_dict. repeat split.
  - apply resolve_price_primary.
  - intros H p rest Hp. eapply resolve_price_fallback; eassumption.
  - apply resolve_price_default.
Qed.

(** C10: when [price] is an object whose [raw] entry is missing, empty or
    otherwise false, and [prices] is a list that starts with an object,
    the price is that object's [raw] entry (the empty string only if that
    is false too). *)
Theorem falsy_price_falls_back_to_prices item p first rest :
  get item (lit "price") = PDict p ->
  truthy (get p (lit "raw")) = false ->
  get item (lit "prices") = PList (PDict first :: rest) ->
  normalized_price py_repr (PDict item)
  = Ok (por (get first (lit "raw")) (PStr []))
  /\ forall c s,
       get first (lit "raw") = PStr (c :: s) ->
       normalized_price py_repr (PDict item) = Ok (PStr (c :: s)).
Proof.
  intros Hprice Hraw Hprices.
  assert (H : normalized_price py_repr (PDict item)
              = Ok (por (get first (lit "raw")) (PStr []))).
  { rewrite normalized_price_dict.
    apply resolve_price_fallback with (rest := rest); [|exact Hprices].
    unfold primary_price. rewrite Hprice. exact Hraw. }
  split; [exact H|].
  intros c s Hfirst. rewrite H, Hfirst. reflexivity.
Qed.

(** ** strip *)

Lemma lstrip_spec s :
  exists l,
    s = l ++ lstrip s
    /\ Forall (fun c => is_space c = true) l
    /\ forall c t, lstrip s = c :: t -> is_space c = false.
Proof.
  induction s as [|c s (l & Hs & Hl & Hhead)]; simpl.
  - exists []. repeat split; [constructor | discriminate].
  - destruct (is_space c) eqn:Hc.
    + exists (c :: l). simpl. repeat split.
      * f_equal. exact Hs.
      * constructor; assumption.
      * exact Hhead.
    + exists []. repeat split; [constructor|].
      intros c' t H. injection H as <- _. exact Hc.
Qed.

Lemma lstrip_spaces l x :
  Forall (fun c => is_space c = true) l -> lstrip (l ++ x) = lstrip x.
Proof. induction 1 as [|c l Hc _ IH]; simpl; [|rewrite Hc]; auto. Qed.

Lemma lstrip_all_spaces l :
  Forall (fun c => is_space c = true) l -> lstrip l = [].
Proof.
  intros H. rewrite <- (app_nil_r l). rewrite lstrip_spaces by exact H.
  reflexivity.
Qed.

(** [strip] trims. *)
Lemma strip_Trimmed s : Trimmed s (strip s).
Proof.
  unfold strip, rstrip.
  destruct (lstrip_spec s) as (l & Hs & Hl & Hhead).
  destruct (lstrip_spec (rev (lstrip s))) as (r & Hr & Hsp & Hlast).
  set (u := lstrip s) in *. set (w := lstrip (rev u)) in *.
  assert (Hu : u = rev w ++ rev r).
  { rewrite <- rev_app_distr, <- Hr. symmetry. apply rev_involutive. }
  exists l, (rev r). repeat split.
  - rewrite <- Hu. exact Hs.
  - exact Hl.
  - apply Forall_rev, Hsp.
  - intros c t Ht. apply (Hhead c (t ++ rev r)).
    rewrite Hu, Ht. reflexivity.
  - intros c t Ht. apply (Hlast c (rev t)).
    rewrite <- (rev_involutive w), Ht, rev_app_distr. reflexivity.
Qed.

(** Trimming has one result, the one [strip] computes. *)
Lemma Trimmed_strip s t : Trimmed s t -> t = strip s.
Proof.
  intros (l & r & -> & Hl & Hr & Hhead & Hlast).
  unfold strip, rstrip. rewrite lstrip_spaces by exact Hl.
  destruct t as [|c t].
  - simpl. rewrite (lstrip_all_spaces Hr). reflexivity.
  - simpl. rewrite (Hhead c t eq_refl).
    change (c :: t ++ r) with ((c :: t) ++ r).
    rewrite rev_app_distr, lstrip_spaces by (apply Forall_rev, Hr).
    destruct (exists_last (l := c :: t)) as (t' & c' & Ht); [discriminate|].
    rewrite Ht, rev_app_distr. simpl.
    rewrite (Hlast c' t' Ht). simpl. rewrite rev_involutive. reflexivity.
Qed.

(** ** Markup characters *)

Lemma skeleton_app a b : skeleton (a ++ b) = skeleton a ++ skeleton b.
Proof. apply filter_app. Qed.

Lemma skeleton_escape_char c : skeleton (escape_char c) = [].
Proof.
  unfold escape_char.
  destruct (N.eqb_spec c 38); [reflexivity|].
  destruct (N.eqb_spec c 60) as [|H60]; [reflexivity|].
  destruct (N.eqb_spec c 62) as [|H62]; [reflexivity|].
  destruct (N.eqb_spec c 34) as [|H34]; [reflexivity|].
  destruct (N.eqb_spec c 39); [reflexivity|].
  unfold skeleton, markup. simpl.
  apply N.eqb_neq in H60, H62, H34. rewrite H60, H62, H34. reflexivity.
Qed.

(** Escaped text has no markup character. *)
Lemma skeleton_escape s : skeleton (escape s) = [].
Proof.
  unfold escape. induction s as [|c s IH]; [reflexivity|].
  simpl. rewrite skeleton_app, skeleton_escape_char, IH. reflexivity.
Qed.

Lemma skeleton_uint_digits u : skeleton (uint_digits u) = [].
Proof. induction u; simpl; auto. Qed.

Lemma skeleton_digits n : skeleton (digits n) = [].
Proof. apply skeleton_uint_digits. Qed.

Lemma skeleton_sign_str b : skeleton (sign_str b) = [].
Proof. destruct b; reflexivity. Qed.

Lemma skeleton_group3 n ds : skeleton ds = [] -> skeleton (group3 n ds) = [].
Proof.
  revert n. induction ds as [|d ds IH]; intros n H; [reflexivity|].
  unfold skeleton in *. simpl in H.
  destruct (markup d) eqn:Hd; [discriminate H|].
  destruct n as [|[|[|[|n]]]]; simpl; rewrite Hd; apply IH, H.
Qed.

Lemma skeleton_format_comma z : skeleton (format_comma z) = [].
Proof.
  unfold format_comma. rewrite skeleton_app, skeleton_sign_str.
  unfold skeleton. rewrite filter_rev.
  fold (skeleton (group3 0 (rev (digits (Z.abs_N z))))).
  rewrite skeleton_group3; [reflexivity|].
  unfold skeleton. rewrite filter_rev.
  fold (skeleton (digits (Z.abs_N z))). rewrite skeleton_digits.
  reflexivity.
Qed.

Lemma skeleton_format_1f x a : format_1f x = Ok a -> skeleton a = [].
Proof.
  destruct x as [z|f]; simpl.
  - intros H. apply bind_Ok in H as (v & _ & H). apply Ok_inj in H as <-.
    rewrite !skeleton_app, skeleton_sign_str, skeleton_digits. reflexivity.
  - intros H. apply Ok_inj in H as <-.
    unfold format_1f_float. destruct f; cbv zeta;
      rewrite ?skeleton_app, ?skeleton_sign_str, ?skeleton_digits;
      reflexivity.
Qed.

Lemma high_byte k x : (128 <=? k)%N = true -> (128 <= k + x)%N.
Proof. intros H. apply N.leb_le in H. lia. Qed.

Lemma utf8_char_cases c b :
  utf8_char c = Ok b ->
  ((c < 128)%N /\ b = [c])
  \/ ((128 <= c)%N /\ Forall (fun x => (128 <= x)%N) b).
Proof.
  unfold utf8_char.
  destruct (N.ltb_spec c 128); [intros H'; left; split; congruence|].
  assert (Hhigh : forall bs, Forall (fun x => (128 <= x)%N) bs ->
                             Ok bs = Ok b ->
                             Forall (fun x => (128 <= x)%N) b)
    by (intros bs Hbs Heq; congruence).
  destruct (N.ltb_spec c 2048).
  { intros H'. right. split; [assumption|]. refine (Hhigh _ _ H').
    repeat (apply Forall_cons; [apply high_byte; reflexivity|]).
    apply Forall_nil. }
  destruct ((55296 <=? c)%N && (c <=? 57343)%N); [discriminate|].
  destruct (N.ltb_spec c 65536).
  { intros H'. right. split; [assumption|]. refine (Hhigh _ _ H').
    repeat (apply Forall_cons; [apply high_byte; reflexivity|]).
    apply Forall_nil. }
  destruct (N.ltb_spec c 1114112); [|discriminate].
  intros H'. right. split; [assumption|]. refine (Hhigh _ _ H').
  repeat (apply Forall_cons; [apply high_byte; reflexivity|]).
    apply Forall_nil.
Qed.

Lemma markup_high x : (128 <= x)%N -> markup x = false.
Proof.
  intros H. unfold markup.
  destruct (N.eqb_spec x 60); [lia|].
  destruct (N.eqb_spec x 62); [lia|].
  destruct (N.eqb_spec x 34); [lia|]. reflexivity.
Qed.

Lemma skeleton_high b :
  Forall (fun x => (128 <= x)%N) b -> skeleton b = [].
Proof.
  induction 1 as [|x b Hx _ IH]; [reflexivity|].
  unfold skeleton in *. simpl. rewrite (markup_high Hx). exact IH.
Qed.

(** Encoding neither adds nor removes a markup character. *)
Lemma skeleton_encode_utf8 s bs :
  encode_utf8 s = Ok bs -> skeleton bs = skeleton s.
Proof.
  revert bs. induction s as [|c s IH]; simpl; intros bs H.
  - apply Ok_inj in H as <-. reflexivity.
  - apply bind_Ok in H as (b & Hb & H).
    apply bind_Ok in H as (bs' & Hbs & H). apply Ok_inj in H as <-.
    rewrite skeleton_app, (IH _ Hbs).
    assert (Hc : skeleton b = skeleton [c]).
    { destruct (utf8_char_cases _ Hb) as [[_ ->]|[Hc Hhigh]]; [reflexivity|].
      rewrite (skeleton_high Hhigh).
      unfold skeleton. simpl. rewrite (markup_high Hc). reflexivity. }
    rewrite Hc. symmetry. apply (skeleton_app [c] s).
Qed.

Lemma skeleton_html_escape v s : html_escape v = Ok s -> skeleton s = [].
Proof.
  destruct v; try discriminate. simpl. intros H. apply Ok_inj in H as <-.
  apply skeleton_escape.
Qed.

Lemma skeleton_rating_text rating ratings_total t :
  rating_text rating ratings_total = Ok t ->
  skeleton t
  = skeleton (if is_int_or_float rating && is_int ratings_total
              then lit "<span>" ++ star ++ lit " </span> <span>()</span>"
              else []).
Proof.
  unfold rating_text, is_int_or_float, is_int.
  destruct (as_number rating) as [x|];
    [destruct (as_int ratings_total) as [n|]|]; lazy beta iota.
  - intros H. apply bind_Ok in H as (a & Ha & H). apply Ok_inj in H as <-.
    rewrite !skeleton_app, (skeleton_format_1f _ Ha), skeleton_format_comma.
    reflexivity.
  - intros H. apply Ok_inj in H as <-. reflexivity.
  - intros H. apply Ok_inj in H as <-. reflexivity.
Qed.

(** The markup characters of a card are those of its template. *)
Lemma skeleton_render_card r m :
  render_card py_repr r = Ok m ->
  skeleton m
  = skeleton (card_frame (fst (card_shape r)) (snd (card_shape r))).
Proof.
  unfold render_card, card_shape, card_frame. intros H.
  apply bind_Ok in H as (rt & Hrt & H).
  apply bind_Ok in H as (img & Himg & H).
  apply bind_Ok in H as (href & Hhref & H). apply Ok_inj in H as <-.
  apply skeleton_rating_text in Hrt. apply skeleton_html_escape in Hhref.
  cbn [fst snd].
  assert (Hi : skeleton img
               = skeleton
                   (if truthy (por (get r (lit "image")) (PStr []))
                    then lit "<img src=" ++ dq ++ dq ++ lit " alt=" ++ dq
                         ++ dq ++ lit ">"
                    else NO_IMAGE)).
  { destruct (truthy (por (get r (lit "image")) (PStr []))).
    - apply bind_Ok in Himg as (src & Hsrc & Himg). apply Ok_inj in Himg as <-.
      apply skeleton_html_escape in Hsrc.
      rewrite !skeleton_app, Hsrc, skeleton_escape. reflexivity.
    - apply Ok_inj in Himg as <-. reflexivity. }
  rewrite !skeleton_app, Hrt, Hi, Hhref, !skeleton_escape.
  reflexivity.
Qed.

Lemma skeleton_cards rs cards :
  map_result (render_card py_repr) rs = Ok cards ->
  skeleton (List.concat cards)
  = skeleton (flat_map (fun c => card_frame (fst c) (snd c))
                (map card_shape rs)).
Proof.
  intros H. apply map_result_Ok in H.
  induction H as [|r m rs cards Hm _ IH]; [reflexivity|].
  cbn [List.concat map flat_map].
  rewrite !skeleton_app, IH, (skeleton_render_card _ Hm). reflexivity.
Qed.

Lemma skeleton_banner e :
  skeleton (banner e)
  = skeleton (if has_banner e then BANNER_OPEN ++ DIV_CLOSE else []).
Proof.
  destruct e as [[|c e]|]; [reflexivity| |reflexivity].
  unfold banner, has_banner.
  rewrite !skeleton_app, skeleton_escape. reflexivity.
Qed.

(** C5: in the bytes of a rendered page the characters [<], [>] and the
    double quote are, in number and order, those of the page template with
    every field left empty; the query, the error text, the configured
    domain and the titles, ASINs, prices, links and image addresses of the
    results contribute none. *)
Theorem rendered_markup_is_the_template cfg query rs e out :
  render_html py_repr cfg query rs e = Ok out ->
  skeleton out = skeleton (page_frame (has_banner e) (map card_shape rs)).
Proof.
  unfold render_html, render_text. intros H.
  apply bind_Ok in H as (text & Htext & H).
  apply bind_Ok in Htext as (listed & Hl & Htext). apply Ok_inj in Htext as <-.
  rewrite (skeleton_encode_utf8 _ H). clear H.
  unfold page_frame.
  rewrite !skeleton_app, !skeleton_escape, skeleton_banner.
  rewrite <- ?app_assoc. rewrite ?app_nil_l. do 4 f_equal.
  destruct rs as [|r rs].
  - apply Ok_inj in Hl as <-. reflexivity.
  - unfold listing in Hl.
    apply bind_Ok in Hl as (cards & Hc & Hl). apply Ok_inj in Hl as <-.
    cbn [map]. rewrite !skeleton_app, (skeleton_cards _ Hc). reflexivity.
Qed.

(** ** Occurrences *)

Lemma compat_app w a b : compat w (a ++ b) = true -> compat w a = true.
Proof.
  revert a. induction w as [|x w IH]; intros a H; [reflexivity|].
  destruct a as [|y a]; [reflexivity|]. simpl in *.
  apply andb_prop in H as [-> H]. apply (IH _ H).
Qed.

(** Two texts free of [w] have a concatenation free of [w]. *)
Lemma free_app w a b :
  free w a = true -> free w b = true -> free w (a ++ b) = true.
Proof.
  intros Ha Hb. induction a as [|c a IH]; [exact Hb|].
  cbn [app free] in *. apply andb_prop in Ha as [Hc Ha].
  rewrite (IH Ha), andb_true_r.
  destruct (compat w (c :: a ++ b)) eqn:H; [|reflexivity].
  apply (compat_app w (c :: a) b) in H. rewrite H in Hc. discriminate Hc.
Qed.

Lemma free_concat w l :
  Forall (fun s => free w s = true) l -> free w (List.concat l) = true.
Proof.
  induction 1 as [|s l Hs _ IH]; [reflexivity|].
  simpl. apply free_app; assumption.
Qed.

Lemma starts_with_compat w s : starts_with w s = true -> compat w s = true.
Proof.
  revert s. induction w as [|a w IH]; intros s H; [reflexivity|].
  destruct s as [|b s]; [reflexivity|]. simpl in *.
  apply andb_prop in H as [-> H]. apply (IH _ H).
Qed.

Lemma free_not_occurs w s :
  w <> [] -> free w s = true -> occurs w s = false.
Proof.
  intros Hw. induction s as [|c s IH]; simpl.
  - intros _. destruct w; [contradiction|reflexivity].
  - intros H. apply andb_prop in H as [Hc Hs]. rewrite (IH Hs), orb_false_r.
    destruct (starts_with w (c :: s)) eqn:Hsw; [|reflexivity].
    apply starts_with_compat in Hsw. rewrite Hsw in Hc. discriminate Hc.
Qed.

Lemma starts_with_app w b : starts_with w (w ++ b) = true.
Proof. induction w as [|a w IH]; simpl; [|rewrite N.eqb_refl]; auto. Qed.

Lemma occurs_app_r w a b : occurs w b = true -> occurs w (a ++ b) = true.
Proof.
  intros H. induction a as [|c a IH]; [exact H|].
  simpl. rewrite IH. apply orb_true_r.
Qed.

Lemma occurs_intro w a b : occurs w (a ++ w ++ b) = true.
Proof.
  apply occurs_app_r. destruct (w ++ b) eqn:E; simpl;
    rewrite <- E, starts_with_app; reflexivity.
Qed.

(** A text without markup characters is free of anything that starts
    with [<]. *)
Lemma free_plain w s :
  starts_with [60%N] w = true -> skeleton s = [] -> free w s = true.
Proof.
  intros Hw. destruct w as [|a w]; [discriminate Hw|].
  cbn [starts_with] in Hw. rewrite andb_true_r in Hw.
  apply N.eqb_eq in Hw. subst a.
  induction s as [|c s IH]; [reflexivity|].
  unfold skeleton. cbn [filter free compat]. intros H.
  destruct (markup c) eqn:Hc; [discriminate H|].
  rewrite (IH H), andb_true_r.
  destruct (N.eqb_spec 60 c) as [<-|_]; [discriminate Hc|reflexivity].
Qed.

(** *** Through the encoding *)

Lemma utf8_char_nonempty c b : utf8_char c = Ok b -> b <> [].
Proof.
  unfold utf8_char.
  repeat match goal with
         | |- context [if ?x then _ else _] => destruct x
         end; intros H; try discriminate H;
    apply Ok_inj in H; subst b; discriminate.
Qed.

Lemma starts_with_encode_utf8 w s bs :
  ascii_only w = true ->
  encode_utf8 s = Ok bs ->
  starts_with w bs = starts_with w s.
Proof.
  revert s bs. induction w as [|a w IH]; intros s bs Hw He; [reflexivity|].
  simpl in Hw. apply andb_prop in Hw as [Ha Hw]. apply N.ltb_lt in Ha.
  destruct s as [|c s]; simpl in He.
  - apply Ok_inj in He as <-. reflexivity.
  - apply bind_Ok in He as (b & Hb & He).
    apply bind_Ok in He as (bs' & Hbs & He). apply Ok_inj in He as <-.
    destruct (utf8_char_cases _ Hb) as [[_ ->]|[Hc Hhigh]].
    + simpl. rewrite (IH _ _ Hw Hbs). reflexivity.
    + pose proof (utf8_char_nonempty _ Hb) as Hne.
      destruct Hhigh as [|x b' Hx _]; [contradiction|].
      simpl.
      destruct (N.eqb_spec a x); [lia|].
      destruct (N.eqb_spec a c); [lia|]. reflexivity.
Qed.

Lemma occurs_high a w b rest :
  (a < 128)%N ->
  Forall (fun x => (128 <= x)%N) b ->
  occurs (a :: w) (b ++ rest) = occurs (a :: w) rest.
Proof.
  intros Ha. induction 1 as [|x b Hx _ IH]; [reflexivity|].
  cbn [app occurs starts_with]. rewrite IH.
  destruct (N.eqb_spec a x); [lia|]. reflexivity.
Qed.

(** An ASCII text occurs in the bytes exactly when it occurs in the
    string. *)
Lemma occurs_encode_utf8 w s bs :
  w <> [] ->
  ascii_only w = true ->
  encode_utf8 s = Ok bs ->
  occurs w bs = occurs w s.
Proof.
  destruct w as [|a w]; [contradiction|]. intros _ Hw.
  revert bs. induction s as [|c s IH]; intros bs He.
  - simpl in He. apply Ok_inj in He as <-. reflexivity.
  - pose proof (starts_with_encode_utf8 _ _ Hw He) as Hsw.
    simpl in He.
    apply bind_Ok in He as (b & Hb & He).
    apply bind_Ok in He as (bs' & Hbs & He). apply Ok_inj in He as <-.
    specialize (IH _ Hbs).
    simpl in Hw. apply andb_prop in Hw as [Ha _]. apply N.ltb_lt in Ha.
    destruct (utf8_char_cases _ Hb) as [[_ ->]|[Hc Hhigh]].
    + cbn [app occurs] in *. rewrite Hsw, IH. reflexivity.
    + rewrite (occurs_high _ _ Ha Hhigh), IH.
      cbn [occurs starts_with].
      destruct (N.eqb_spec a c); [lia|]. reflexivity.
Qed.

Lemma starts_with_app_l w a b :
  starts_with w a = true -> starts_with w (a ++ b) = true.
Proof.
  revert a. induction w as [|x w IH]; intros a H; [reflexivity|].
  destruct a as [|y a]; [discriminate H|]. simpl in *.
  apply andb_prop in H as [-> H]. apply (IH _ H).
Qed.

Lemma occurs_app_l w a b : occurs w a = true -> occurs w (a ++ b) = true.
Proof.
  induction a as [|c a IH]; cbn [app occurs]; intros H.
  - rewrite orb_false_r in H. destruct w; [|discriminate H].
    destruct b; reflexivity.
  - apply orb_prop in H as [H|H].
    + apply orb_true_iff. left. apply (starts_with_app_l _ _ b H).
    + apply orb_true_iff. right. apply (IH H).
Qed.

Lemma starts_with_shorter w x s :
  starts_with (w ++ x) s = true -> starts_with w s = true.
Proof.
  revert s. induction w as [|a w IH]; intros s H; [reflexivity|].
  destruct s as [|b s]; [discriminate H|]. cbn [app starts_with] in *.
  apply andb_prop in H as [-> H]. apply (IH _ H).
Qed.

Lemma occurs_shorter w x s :
  occurs (w ++ x) s = true -> occurs w s = true.
Proof.
  induction s as [|c s IH]; cbn [occurs]; intros H;
    apply orb_prop in H as [H|H]; apply orb_true_iff.
  - left. apply (starts_with_shorter _ _ _ H).
  - discriminate H.
  - left. apply (starts_with_shorter _ _ _ H).
  - right. apply (IH H).
Qed.

Lemma occurs_prefix w b : occurs w (w ++ b) = true.
Proof. apply (occurs_intro w [] b). Qed.

(** *** The template and the three marks *)

Lemma notice_not_in_template :
  forallb (free NO_RESULTS)
    (BANNER_OPEN :: page_pieces ++ card_pieces ++ rating_pieces) = true.
Proof. vm_compute. reflexivity. Qed.

Lemma banner_not_in_template :
  forallb (free BANNER_OPEN)
    (NO_RESULTS :: page_pieces ++ card_pieces ++ rating_pieces) = true.
Proof. vm_compute. reflexivity. Qed.

Lemma rating_not_in_card_template :
  forallb (free RATING_OPEN) card_pieces = true.
Proof. vm_compute. reflexivity. Qed.

Lemma marks_nonempty :
  NO_RESULTS <> [] /\ BANNER_OPEN <> [] /\ RATING_OPEN <> [].
Proof. repeat split; intros H; vm_compute in H; discriminate H. Qed.

Ltac pieces H :=
  cbn [forallb app page_pieces card_pieces rating_pieces] in H;
  repeat (let P := fresh "Hpiece" in
          apply andb_prop in H; destruct H as [P H]).

Ltac free_parts Hw :=
  repeat match goal with
         | |- free _ (_ ++ _) = true => apply free_app
         end;
  try assumption;
  try (apply free_plain;
       [ exact Hw
       | first [ apply skeleton_escape
               | eapply skeleton_html_escape; eassumption
               | eapply skeleton_format_1f; eassumption
               | apply skeleton_format_comma ] ]).

Lemma rating_text_present rating ratings_total x n :
  as_number rating = Some x -> as_int ratings_total = Some n ->
  rating_text rating ratings_total
  = (r <- format_1f x ;;
     Ok (lit "<span>" ++ star ++ lit " " ++ r ++ lit "</span> <span>("
         ++ format_comma n ++ lit ")</span>")).
Proof. unfold rating_text. intros -> ->. reflexivity. Qed.

Lemma rating_text_absent rating ratings_total :
  is_int_or_float rating && is_int ratings_total = false ->
  rating_text rating ratings_total = Ok [].
Proof.
  unfold rating_text, is_int_or_float, is_int.
  destruct (as_number rating); [destruct (as_int ratings_total)|];
    try reflexivity. discriminate.
Qed.

Lemma free_rating_text w rating ratings_total t :
  starts_with [60%N] w = true ->
  forallb (free w) rating_pieces = true ->
  rating_text rating ratings_total = Ok t ->
  free w t = true.
Proof.
  intros Hw Hp H. pieces Hp.
  destruct (is_int_or_float rating && is_int ratings_total) eqn:E.
  - unfold is_int_or_float, is_int in E.
    destruct (as_number rating) as [x|] eqn:Hx; [|discriminate E].
    destruct (as_int ratings_total) as [n|] eqn:Hn; [|discriminate E].
    rewrite (rating_text_present _ _ Hx Hn) in H.
    apply bind_Ok in H as (a & Ha & H). apply Ok_inj in H as <-.
    free_parts Hw.
  - rewrite (rating_text_absent _ _ E) in H. apply Ok_inj in H as <-.
    reflexivity.
Qed.

(** A card is free of a mark when its template is and its rating segment
    is. *)
Lemma free_render_card w r m :
  starts_with [60%N] w = true ->
  forallb (free w) card_pieces = true ->
  (forall t, rating_text (get r (lit "rating"))
               (get r (lit "ratings_total")) = Ok t -> free w t = true) ->
  render_card py_repr r = Ok m ->
  free w m = true.
Proof.
  intros Hw Hp Hrating H. pieces Hp. unfold render_card in H.
  apply bind_Ok in H as (rt & Hrt & H).
  apply bind_Ok in H as (img & Himg & H).
  apply bind_Ok in H as (href & Hhref & H). apply Ok_inj in H as <-.
  apply Hrating in Hrt.
  assert (Hi : free w img = true).
  { destruct (truthy (por (get r (lit "image")) (PStr []))).
    - apply bind_Ok in Himg as (src & Hsrc & Himg).
      apply Ok_inj in Himg as <-. free_parts Hw.
    - apply Ok_inj in Himg as <-. assumption. }
  free_parts Hw.
Qed.

Lemma free_banner w e :
  starts_with [60%N] w = true ->
  free w BANNER_OPEN = true -> free w DIV_CLOSE = true ->
  free w (banner e) = true.
Proof.
  intros Hw Ho Hc. destruct e as [[|c e]|]; try reflexivity.
  unfold banner. free_parts Hw.
Qed.

(** A page is free of a mark when all its parts are. *)
Lemma free_render_text w cfg query rs e text :
  starts_with [60%N] w = true ->
  forallb (free w) (page_pieces ++ card_pieces ++ rating_pieces) = true ->
  free w (banner e) = true ->
  (rs = [] -> free w NO_RESULTS = true) ->
  render_text py_repr cfg query rs e = Ok text ->
  free w text = true.
Proof.
  intros Hw Hp Hb Hn H.
  assert (Hcards : forallb (free w) card_pieces = true
                   /\ forallb (free w) rating_pieces = true).
  { unfold page_pieces in Hp. rewrite !forallb_app in Hp.
    apply andb_prop in Hp as [_ Hp]. apply andb_prop in Hp. exact Hp. }
  destruct Hcards as [Hcard Hrating].
  pieces Hp. unfold render_text in H.
  apply bind_Ok in H as (listed & Hl & H). apply Ok_inj in H as <-.
  assert (Hlisted : free w listed = true).
  { destruct rs as [|r rs].
    - apply Ok_inj in Hl as <-. apply Hn. reflexivity.
    - unfold listing in Hl.
      apply bind_Ok in Hl as (cards & Hc & Hl). apply Ok_inj in Hl as <-.
      apply map_result_Ok in Hc.
      assert (Hall : Forall (fun s => free w s = true) cards).
      { clear -Hc Hw Hcard Hrating.
        induction Hc as [|r' m rs' cards Hm _ IH]; constructor; [|exact IH].
        eapply free_render_card; [exact Hw | exact Hcard | | exact Hm].
        intros t. apply free_rating_text; assumption. }
      apply free_concat in Hall. free_parts Hw. }
  free_parts Hw.
Qed.

(** C6, as the code has it: the page has the no-results notice exactly
    when the result list is empty, with or without an error; and it has
    the error banner exactly when the error is neither null nor the empty
    string. *)
Theorem notice_iff_no_results cfg query rs e out :
  render_html py_repr cfg query rs e = Ok out ->
  (occurs NO_RESULTS out = true <-> rs = [])
  /\ (occurs BANNER_OPEN out = true <-> has_banner e = true).
Proof.
  unfold render_html. intros H.
  apply bind_Ok in H as (text & Htext & H).
  assert (E1 : occurs NO_RESULTS out = occurs NO_RESULTS text)
    by (apply occurs_encode_utf8;
        [apply marks_nonempty | reflexivity | exact H]).
  assert (E2 : occurs BANNER_OPEN out = occurs BANNER_OPEN text)
    by (apply occurs_encode_utf8;
        [apply marks_nonempty | reflexivity | exact H]).
  rewrite E1, E2. clear E1 E2 H out.
  pose proof notice_not_in_template as Hnotice.
  pose proof banner_not_in_template as Hbanner.
  cbn [forallb] in Hnotice, Hbanner.
  apply andb_prop in Hnotice as [Hn1 Hn2], Hbanner as [Hb1 Hb2].
  assert (Hdiv : forall w, forallb (free w)
                   (page_pieces ++ card_pieces ++ rating_pieces) = true ->
                 free w DIV_CLOSE = true).
  { intros w Hp. pieces Hp. assumption. }
  split; split.
  - intros Hocc. destruct rs as [|r rs]; [reflexivity|].
    rewrite (free_not_occurs (w := NO_RESULTS)) in Hocc;
      [discriminate Hocc | apply marks_nonempty |].
    eapply free_render_text; [reflexivity | exact Hn2 | | | exact Htext].
    + apply free_banner; [reflexivity | exact Hn1 | apply Hdiv, Hn2].
    + intros Hx. discriminate Hx.
  - intros ->. unfold render_text in Htext.
    apply bind_Ok in Htext as (listed & Hl & Htext).
    apply Ok_inj in Hl as <-. apply Ok_inj in Htext as <-.
    apply occurs_app_r, occurs_app_l, occurs_app_r.
    rewrite <- (app_nil_r NO_RESULTS) at 2. apply occurs_prefix.
  - intros Hocc. destruct (has_banner e) eqn:He; [reflexivity|].
    rewrite (free_not_occurs (w := BANNER_OPEN)) in Hocc;
      [discriminate Hocc | apply marks_nonempty |].
    eapply free_render_text; [reflexivity | exact Hb2 | | | exact Htext].
    + destruct e as [[|c e]|]; try reflexivity. discriminate He.
    + intros _. exact Hb1.
  - intros He. destruct e as [[|c e]|]; try discriminate He.
    unfold render_text in Htext.
    apply bind_Ok in Htext as (listed & Hl & Htext).
    apply Ok_inj in Htext as <-.
    apply occurs_app_r, occurs_app_l, occurs_app_l.
    unfold banner. apply occurs_prefix.
Qed.

(** [isinstance] on what [json.loads] gives: a number or a boolean, an
    integer or a boolean. *)
Lemma is_int_or_float_json v :
  is_int_or_float v = json_number v || json_boolean v.
Proof. destruct v; reflexivity. Qed.

Lemma is_int_json v : is_int v = json_integer v || json_boolean v.
Proof. destruct v; reflexivity. Qed.

(** C9, as the code has it: a card has a rating segment exactly when the
    rating is a number or a boolean and the ratings total an integer or a
    boolean (Python's [isinstance] takes [True] and [False] for the
    integers 1 and 0); the segment is then the star, the rating to one
    decimal place and the total with thousands separators.  In every
    other case the card has no segment. *)
Theorem rating_segment_iff_numbers r m :
  render_card py_repr r = Ok m ->
  (occurs RATING_OPEN m = true <->
   json_number (get r (lit "rating")) || json_boolean (get r (lit "rating"))
   = true
   /\ json_integer (get r (lit "ratings_total"))
      || json_boolean (get r (lit "ratings_total")) = true)
  /\ forall x n,
       as_number (get r (lit "rating")) = Some x ->
       as_int (get r (lit "ratings_total")) = Some n ->
       exists a,
         format_1f x = Ok a
         /\ occurs (RATING_OPEN ++ a ++ lit "</span> <span>("
                    ++ format_comma n ++ lit ")</span>") m = true.
Proof.
  intros H. rewrite <- is_int_or_float_json, <- is_int_json.
  assert (Hpresent : forall x n,
             as_number (get r (lit "rating")) = Some x ->
             as_int (get r (lit "ratings_total")) = Some n ->
             exists a,
               format_1f x = Ok a
               /\ occurs (RATING_OPEN ++ a ++ lit "</span> <span>("
                          ++ format_comma n ++ lit ")</span>") m = true).
  { intros x n Hx Hn. unfold render_card in H.
    apply bind_Ok in H as (rt & Hrt & H).
    apply bind_Ok in H as (img & Himg & H).
    apply bind_Ok in H as (href & Hhref & H). apply Ok_inj in H as <-.
    rewrite (rating_text_present _ _ Hx Hn) in Hrt.
    apply bind_Ok in Hrt as (a & Ha & Hrt). apply Ok_inj in Hrt as <-.
    exists a. split; [exact Ha|].
    do 11 apply occurs_app_r. apply occurs_app_l.
    unfold RATING_OPEN.
    rewrite <- (app_assoc (lit "<span>")), <- (app_assoc star).
    rewrite <- (app_nil_r (lit "<span>" ++ _)) at 2.
    apply occurs_prefix. }
  split; [split|].
  - intros Hocc.
    destruct (is_int_or_float (get r (lit "rating"))
              && is_int (get r (lit "ratings_total"))) eqn:E.
    + apply andb_prop in E. exact E.
    + rewrite (free_not_occurs (w := RATING_OPEN)) in Hocc;
        [discriminate Hocc | apply marks_nonempty |].
      eapply free_render_card;
        [reflexivity | exact rating_not_in_card_template | | exact H].
      intros t. rewrite (rating_text_absent _ _ E).
      intros Ht. apply Ok_inj in Ht as <-. reflexivity.
  - intros [Hr Ht]. unfold is_int_or_float, is_int in Hr, Ht.
    destruct (as_number (get r (lit "rating"))) as [x|] eqn:Hx;
      [|discriminate Hr].
    destruct (as_int (get r (lit "ratings_total"))) as [n|] eqn:Hn;
      [|discriminate Ht].
    destruct (Hpresent x n eq_refl eq_refl) as (a & _ & Hocc).
    apply (occurs_shorter _ _ _ Hocc).
  - exact Hpresent.
Qed.

(** ** Cards that render *)

Lemma int_to_float_small z :
  (Z.abs z < 2 ^ 53)%Z -> int_to_float z = Ok z.
Proof.
  intros H. unfold int_to_float.
  destruct (Z.ltb_spec (Z.abs z) (2 ^ 53)); [reflexivity | lia].
Qed.

Lemma html_escape_por v default :
  str_or_falsy v = true ->
  html_escape (por v (PStr default))
  = Ok (escape (match v with
                | PStr (c :: s) => c :: s
                | _ => default
                end)).
Proof.
  unfold por, str_or_falsy.
  destruct v as [|b|z|f|[|c s]|l|d]; intros H; try reflexivity;
    apply negb_true_iff in H; rewrite H; reflexivity.
Qed.

(** A card is rendered whenever its link and image are strings (or
    absent, null or otherwise false) and its rating, when an [int], is
    below 2^53 in absolute value. *)
Lemma render_card_total r :
  str_or_falsy (get r (lit "link")) = true ->
  str_or_falsy (get r (lit "image")) = true ->
  (forall z, as_number (get r (lit "rating")) = Some (NInt z) ->
             (Z.abs z < 2 ^ 53)%Z) ->
  exists m, render_card py_repr r = Ok m.
Proof.
  intros Hlink Himage Hrating. unfold render_card.
  assert (Hrt : exists t, rating_text (get r (lit "rating"))
                            (get r (lit "ratings_total")) = Ok t).
  { unfold rating_text.
    destruct (as_number (get r (lit "rating"))) as [[z|f]|];
      [| |eexists; reflexivity];
      (destruct (as_int (get r (lit "ratings_total")));
       [|eexists; reflexivity]).
    - unfold format_1f. rewrite (int_to_float_small _ (Hrating z eq_refl)).
      eexists. reflexivity.
    - eexists. reflexivity. }
  destruct Hrt as [t ->]. cbn [bind].
  rewrite (html_escape_por _ (lit "#") Hlink).
  destruct (truthy (por (get r (lit "image")) (PStr []))).
  - rewrite (html_escape_por _ [] Himage). eexists. reflexivity.
  - eexists. reflexivity.
Qed.

End Properties.

(** ** Closed instances *)

Lemma missing_credential_example :
  RAINFOREST_API_KEY without_key = None
  /\ search_rainforest repr_stub without_key reply_twenty_five
       DEFAULT_QUERY 10
     = ([], Ok {| error :=
                    Some (lit "Missing RAINFOREST_API_KEY environment variable.");
                  results := [] |}).
Proof.
  split; [reflexivity|].
  apply (missing_credential_short_circuits repr_stub without_key).
  left. reflexivity.
Defined.

Lemma truncation_example :
  exists sent out,
    search_rainforest repr_stub with_key reply_twenty_five DEFAULT_QUERY 10
    = (sent, Ok out)
    /\ (Z.of_nat (List.length (results out)) <= 10)%Z
    /\ List.length (results out) = 10%nat
    /\ map (fun r => get r (lit "title")) (results out)
       = map (fun n => PStr (digits n)) [0; 1; 2; 3; 4; 5; 6; 7; 8; 9]%N.
Proof.
  eexists. eexists. split; [reflexivity|].
  split; [|split; reflexivity].
  eapply (results_truncated_in_order repr_stub with_key reply_twenty_five
            DEFAULT_QUERY (max_items := 10)).
  - lia.
  - reflexivity.
Defined.

Lemma normalize_defaults_example :
  prices_well_formed item_prices_only
  /\ exists r, normalize repr_stub (PDict item_prices_only) = Ok r
               /\ get r (lit "title") = PStr (lit "(no title)").
Proof.
  split; [reflexivity|].
  destruct (proj2 (normalize_total_with_defaults repr_stub)
              item_prices_only eq_refl) as (r & Hr & Htitle & _).
  exists r. split; [exact Hr | apply Htitle; reflexivity].
Defined.

Lemma price_resolution_example :
  truthy (primary_price item_both) = true
  /\ normalized_price repr_stub (PDict item_both)
     = Ok (primary_price item_both).
Proof.
  split; [reflexivity|].
  apply (proj1 (price_resolution_order repr_stub item_both)). reflexivity.
Defined.

(** C3, as the specification words it, fails: with an empty [raw] under
    [price] the rule (a) gives the empty string, and the code gives the
    first of [prices]. *)
Lemma empty_price_object_is_not_final :
  normalized_price repr_stub (PDict item_empty_price) = Ok (PStr (lit "$5"))
  /\ price_as_specified item_empty_price = PStr [].
Proof. split; reflexivity. Qed.

Lemma fallback_example :
  get item_empty_price (lit "price") = PDict [(lit "raw", PStr [])]
  /\ normalized_price repr_stub (PDict item_empty_price)
     = Ok (PStr (lit "$5")).
Proof.
  split; [reflexivity|].
  apply (proj1 (falsy_price_falls_back_to_prices repr_stub item_empty_price
                  (p := [(lit "raw", PStr [])])
                  (first := [(lit "raw", PStr (lit "$5"))]) (rest := [])
                  eq_refl eq_refl eq_refl)).
Defined.

Lemma script_title_example :
  exists out,
    page_script = Ok out
    /\ skeleton out = skeleton (page_frame true [(false, true)])
    /\ occurs (lit "<script>") out = false
    /\ occurs (lit "&lt;script&gt;") out = true.
Proof.
  unfold page_script. eexists. split; [vm_compute; reflexivity|].
  split.
  - apply (rendered_markup_is_the_template repr_stub with_key (lit "<q>")
             [card_script] (Some (lit "<e>"))).
    vm_compute. reflexivity.
  - split; vm_compute; reflexivity.
Defined.

(** C6, as the specification words it, fails: a page for a failed fetch
    (an error and no results) has the banner and the notice. *)
Lemma notice_shown_beside_banner :
  exists out,
    page_failed = Ok out
    /\ occurs NO_RESULTS out = true
    /\ occurs BANNER_OPEN out = true.
Proof.
  unfold page_failed. eexists. split; [vm_compute; reflexivity|].
  split; vm_compute; reflexivity.
Qed.

Lemma notice_example :
  exists out,
    page_failed = Ok out
    /\ (occurs NO_RESULTS out = true <-> @nil dict = [])
    /\ (occurs BANNER_OPEN out = true <->
        has_banner (Some (lit "Network error: timed out")) = true).
Proof.
  unfold page_failed. eexists. split; [vm_compute; reflexivity|].
  apply (notice_iff_no_results repr_stub with_key DEFAULT_QUERY []
           (Some (lit "Network error: timed out"))).
  vm_compute. reflexivity.
Defined.

Lemma rating_segment_example :
  exists m,
    render_card repr_stub card_script = Ok m
    /\ occurs (RATING_OPEN ++ lit "4.5</span> <span>(12,345)</span>") m
       = true
    /\ (occurs RATING_OPEN m = true <->
        json_number (get card_script (lit "rating"))
        || json_boolean (get card_script (lit "rating")) = true
        /\ json_integer (get card_script (lit "ratings_total"))
           || json_boolean (get card_script (lit "ratings_total")) = true).
Proof.
  eexists. split; [vm_compute; reflexivity|].
  split; [vm_compute; reflexivity|].
  apply (rating_segment_iff_numbers repr_stub card_script).
  vm_compute. reflexivity.
Defined.

(** C9, as the specification words it, fails: a rating and a total that
    are the JSON [true] are no numbers, and the card has the segment, with
    1.0 and 1. *)
Lemma booleans_are_rated :
  json_number (get card_booleans (lit "rating")) = false
  /\ json_integer (get card_booleans (lit "ratings_total")) = false
  /\ exists m,
       render_card repr_stub card_booleans = Ok m
       /\ occurs (RATING_OPEN ++ lit "1.0</span> <span>(1)</span>") m = true.
Proof.
  split; [reflexivity|]. split; [reflexivity|].
  eexists. split; vm_compute; reflexivity.
Qed.

(** * Further properties *)

Unset Implicit Arguments.

Section Environment.

(** ** Names and look-ups *)

Lemma str_eqb_eq a b : str_eqb a b = true <-> a = b.
Proof.
  revert b. induction a as [|x a IH]; intros [|y b]; simpl;
    try (split; [discriminate|discriminate]); [split; reflexivity|].
  rewrite andb_true_iff, N.eqb_eq, IH. split.
  - intros [-> ->]. reflexivity.
  - intros H. injection H as -> ->. split; reflexivity.
Qed.

Lemma str_eqb_refl a : str_eqb a a = true.
Proof. apply str_eqb_eq. reflexivity. Qed.

Lemma lookup_assign (k v k' : pystr) (env : environ) :
  lookup k' (assign k v env)
  = if str_eqb k k' then Some v else lookup k' env.
Proof.
  induction env as [|[k0 v0] env IH]; simpl; [reflexivity|].
  destruct (str_eqb k0 k) eqn:E0; simpl.
  - apply str_eqb_eq in E0. subst k0.
    destruct (str_eqb k k'); reflexivity.
  - rewrite IH. destruct (str_eqb k0 k') eqn:E1; [|reflexivity].
    apply str_eqb_eq in E1. subst k0.
    destruct (str_eqb k k') eqn:E2; [|reflexivity].
    apply str_eqb_eq in E2. subst k'.
    rewrite str_eqb_refl in E0. discriminate E0.
Qed.

Lemma assign_fresh (k v : pystr) (env : environ) :
  lookup k env = None -> assign k v env = env ++ [(k, v)].
Proof.
  induction env as [|[k0 v0] env IH]; simpl; [reflexivity|].
  destruct (str_eqb k0 k); [discriminate|].
  intros H. rewrite (IH H). reflexivity.
Qed.

Lemma setenv_Ok k v env env' :
  setenv k v env = Ok env' -> env' = assign k v env.
Proof.
  unfold setenv.
  destruct (existsb unencodable k || existsb unencodable v); [discriminate|].
  destruct (has_char 0%N k || has_char 0%N v); [discriminate|].
  intros H. injection H as <-. reflexivity.
Qed.

(** One turn of the loop either leaves the environment, or stops the
    loop, or adds one name that was not defined. *)
Lemma load_lines_step line rest env :
  load_lines (line :: rest) env = load_lines rest env
  \/ load_lines (line :: rest) env = env
  \/ exists k v,
       dotenv_line line = Some (k, v) /\ k <> [] /\ lookup k env = None
       /\ setenv k v env = Ok (env ++ [(k, v)])
       /\ load_lines (line :: rest) env
          = load_lines rest (env ++ [(k, v)]).
Proof.
  cbn [load_lines].
  destruct (dotenv_line line) as [[[|c k] v]|] eqn:Hline; auto.
  unfold defined.
  destruct (lookup (c :: k) env) eqn:Hk; auto.
  destruct (setenv (c :: k) v env) as [env'|e] eqn:Hset; auto.
  right. right. exists (c :: k), v.
  apply setenv_Ok in Hset as Henv. rewrite (assign_fresh _ _ _ Hk) in Henv.
  subst env'. repeat split; try assumption. discriminate.
Qed.

Lemma lookup_app_Some {V} (k : pystr) (d d' : list (pystr * V)) v :
  lookup k d = Some v -> lookup k (d ++ d') = Some v.
Proof.
  induction d as [|[k0 v0] d IH]; simpl; [discriminate|].
  destruct (str_eqb k0 k); auto.
Qed.

Lemma lookup_app_None {V} (k : pystr) (d d' : list (pystr * V)) :
  lookup k d = None -> lookup k (d ++ d') = lookup k d'.
Proof.
  induction d as [|[k0 v0] d IH]; simpl; [reflexivity|].
  destruct (str_eqb k0 k); [discriminate | auto].
Qed.

Lemma load_lines_keeps lines env k v :
  lookup k env = Some v -> lookup k (load_lines lines env) = Some v.
Proof.
  revert env. induction lines as [|line rest IH]; intros env H; [exact H|].
  destruct (load_lines_step line rest env)
    as [->|[->|(k' & v' & _ & _ & _ & _ & ->)]].
  - apply IH, H.
  - exact H.
  - apply IH, lookup_app_Some, H.
Qed.

(** X1: a variable the environment already has keeps its value, whatever
    the file holds; so the credential and the marketplace domain of the
    environment are those the server starts with. *)
Theorem load_dotenv_keeps_environment file env k v :
  lookup k env = Some v ->
  lookup k (_load_dotenv file env) = Some v
  /\ (k = lit "RAINFOREST_API_KEY" ->
      RAINFOREST_API_KEY (startup_config (_load_dotenv file env)) = Some v)
  /\ (k = lit "AMAZON_DOMAIN" ->
      AMAZON_DOMAIN (startup_config (_load_dotenv file env)) = v).
Proof.
  intros H.
  assert (H' : lookup k (_load_dotenv file env) = Some v).
  { destruct file as [lines|]; [|exact H]. apply load_lines_keeps, H. }
  split; [exact H'|]. split; intros ->; simpl; rewrite H'; reflexivity.
Qed.

Lemma load_lines_values lines env k v :
  lookup k (load_lines lines env) = Some v ->
  lookup k env = Some v
  \/ (lookup k env = None /\ k <> []
      /\ exists line, In line lines /\ dotenv_line line = Some (k, v)).
Proof.
  revert env.
  induction lines as [|line rest IH]; intros env H; [left; exact H|].
  destruct (load_lines_step line rest env)
    as [E|[E|(k' & v' & Hline & Hne & Hk' & _ & E)]]; rewrite E in H.
  - destruct (IH _ H) as [H'|(H1 & H2 & l & Hin & Hl)]; [left; exact H'|].
    right. repeat split; try assumption. exists l. split; [right|]; assumption.
  - left. exact H.
  - destruct (IH _ H) as [H'|(H1 & H2 & l & Hin & Hl)].
    + destruct (lookup k env) as [v0|] eqn:Hk.
      * left. rewrite (lookup_app_Some _ _ _ _ Hk) in H'. exact H'.
      * right. rewrite (lookup_app_None _ _ _ Hk) in H'. simpl in H'.
        destruct (str_eqb k' k) eqn:E'; [|discriminate H'].
        apply str_eqb_eq in E'. subst k'. injection H' as <-.
        repeat split; try assumption. exists line. split; [left|]; auto.
    + right. destruct (lookup k env) as [v0|] eqn:Hk.
      * rewrite (lookup_app_Some _ _ _ _ Hk) in H1. discriminate H1.
      * repeat split; try assumption.
        exists l. split; [right|]; assumption.
Qed.

(** X2: whatever the file, every value a name has afterwards either was
    in the environment or is the value of a line of the file for that
    name, which the environment did not define. *)
Theorem load_dotenv_values_come_from_lines lines env k v :
  lookup k (_load_dotenv (Some lines) env) = Some v ->
  lookup k env = Some v
  \/ (lookup k env = None /\ k <> []
      /\ exists line, In line lines /\ dotenv_line line = Some (k, v)).
Proof. apply load_lines_values. Qed.

Lemma setenv_settable k v env :
  settable k v = true -> setenv k v env = Ok (assign k v env).
Proof.
  unfold settable, setenv. intros H. apply andb_prop in H as [H1 H2].
  apply negb_true_iff in H1, H2. rewrite H1, H2. reflexivity.
Qed.

Lemma setenv_unsettable k v env :
  settable k v = false -> exists e, setenv k v env = Raise e.
Proof.
  unfold settable, setenv. intros H.
  destruct (existsb unencodable k || existsb unencodable v);
    [eexists; reflexivity|].
  destruct (has_char 0%N k || has_char 0%N v);
    [eexists; reflexivity | discriminate H].
Qed.

(** Lines the loop gets past are read one after the other, and leave a
    name they do not give undefined. *)
Lemma load_lines_app k before rest env :
  Forall (passes_by k) before ->
  load_lines (before ++ rest) env = load_lines rest (load_lines before env).
Proof.
  intros H. revert env.
  induction H as [|line before Hline _ IH]; intros env; [reflexivity|].
  unfold passes_by in Hline. cbn [app load_lines].
  destruct (dotenv_line line) as [[[|c k'] v']|]; try apply IH.
  destruct Hline as [_ Hset].
  destruct (defined (c :: k') env); [apply IH|].
  rewrite (setenv_settable _ _ env Hset). apply IH.
Qed.

Lemma load_lines_passes_by k before env :
  Forall (passes_by k) before -> lookup k env = None ->
  lookup k (load_lines before env) = None.
Proof.
  intros H. revert env.
  induction H as [|line before Hline _ IH]; intros env Hk; [exact Hk|].
  unfold passes_by in Hline. cbn [load_lines].
  destruct (dotenv_line line) as [[[|c k'] v']|]; try (apply IH, Hk).
  destruct Hline as [Hne Hset].
  destruct (defined (c :: k') env); [apply IH, Hk|].
  rewrite (setenv_settable _ _ env Hset). apply IH.
  rewrite lookup_assign.
  destruct (str_eqb (c :: k') k) eqn:E; [|exact Hk].
  apply str_eqb_eq in E. destruct (Hne E).
Qed.

(** X4: the first line that gives a name a value wins, when the loop
    gets to it: the lines before it are skipped or set other names, and
    no later line changes the value. *)
Theorem load_dotenv_first_line_wins before line rest env k v :
  Forall (passes_by k) before ->
  dotenv_line line = Some (k, v) -> k <> [] ->
  settable k v = true ->
  lookup k env = None ->
  lookup k (_load_dotenv (Some (before ++ line :: rest)) env) = Some v.
Proof.
  intros Hbefore Hline Hne Hset Hk. cbn [_load_dotenv].
  rewrite (load_lines_app k before _ env Hbefore).
  pose proof (load_lines_passes_by k before env Hbefore Hk) as Hk'.
  destruct k as [|c k]; [contradiction|].
  cbn [load_lines]. rewrite Hline. unfold defined. rewrite Hk'.
  rewrite (setenv_settable _ _ _ Hset).
  apply load_lines_keeps.
  rewrite lookup_assign, str_eqb_refl. reflexivity.
Qed.

(** X20: a line whose name or value the environment refuses ends the
    loading: what the lines before it set stays set, and no line after
    it is read. *)
Theorem load_dotenv_stops_at_bad_line before line rest env k v :
  Forall (passes_by k) before ->
  dotenv_line line = Some (k, v) -> k <> [] ->
  settable k v = false ->
  lookup k env = None ->
  _load_dotenv (Some (before ++ line :: rest)) env
  = _load_dotenv (Some before) env.
Proof.
  intros Hbefore Hline Hne Hset Hk. cbn [_load_dotenv].
  rewrite (load_lines_app k before _ env Hbefore).
  pose proof (load_lines_passes_by k before env Hbefore Hk) as Hk'.
  destruct k as [|c k]; [contradiction|].
  cbn [load_lines]. rewrite Hline. unfold defined. rewrite Hk'.
  destruct (setenv_unsettable _ _ (load_lines before env) Hset) as [e ->].
  reflexivity.
Qed.

Lemma dotenv_line_skipped line :
  dotenv_line line = None
  <-> strip line = []
      \/ starts_with (lit "#") (strip line) = true
      \/ has_char 61%N (strip line) = false.
Proof.
  unfold dotenv_line. cbv zeta. destruct (strip line) as [|c s] eqn:E.
  - split; auto.
  - destruct (starts_with (lit "#") (c :: s)) eqn:Hc; cbn [orb].
    + split; auto.
    + destruct (has_char 61%N (c :: s)) eqn:He; cbn [negb].
      * destruct (split_once 61%N (c :: s)) as [k v].
        split; [intros H; discriminate H|].
        intros [H|[H|H]]; discriminate H.
      * split; auto.
Qed.

(** X5: no file, or a file of blank lines, comments and lines without
    [=], leaves the environment as it was. *)
Theorem load_dotenv_ignores_other_lines file env :
  match file with
  | None => True
  | Some lines =>
      Forall (fun line =>
                strip line = []
                \/ starts_with (lit "#") (strip line) = true
                \/ has_char 61%N (strip line) = false) lines
  end ->
  _load_dotenv file env = env.
Proof.
  destruct file as [lines|]; [|reflexivity]. simpl.
  induction 1 as [|line rest Hline _ IH]; [reflexivity|].
  apply dotenv_line_skipped in Hline. simpl. rewrite Hline. exact IH.
Qed.

(** ** Trimming by a set of characters *)

Lemma lstrip_by_spec p s :
  exists l,
    s = l ++ lstrip_by p s
    /\ Forall (fun c => p c = true) l
    /\ forall c t, lstrip_by p s = c :: t -> p c = false.
Proof.
  induction s as [|c s (l & Hs & Hl & Hhead)]; simpl.
  - exists []. repeat split; [constructor | discriminate].
  - destruct (p c) eqn:Hc.
    + exists (c :: l). simpl. repeat split.
      * f_equal. exact Hs.
      * constructor; assumption.
      * exact Hhead.
    + exists []. repeat split; [constructor|].
      intros c' t H. injection H as <- _. exact Hc.
Qed.

Lemma lstrip_by_skip p l x :
  Forall (fun c => p c = true) l -> lstrip_by p (l ++ x) = lstrip_by p x.
Proof. induction 1 as [|c l Hc _ IH]; simpl; [|rewrite Hc]; auto. Qed.

Lemma lstrip_by_all p l :
  Forall (fun c => p c = true) l -> lstrip_by p l = [].
Proof.
  intros H. rewrite <- (app_nil_r l). rewrite lstrip_by_skip by exact H.
  reflexivity.
Qed.

Lemma strip_by_TrimmedBy p s : TrimmedBy p s (strip_by p s).
Proof.
  unfold strip_by.
  destruct (lstrip_by_spec p s) as (l & Hs & Hl & Hhead).
  destruct (lstrip_by_spec p (rev (lstrip_by p s))) as (r & Hr & Hsp & Hlast).
  set (u := lstrip_by p s) in *. set (w := lstrip_by p (rev u)) in *.
  assert (Hu : u = rev w ++ rev r).
  { rewrite <- rev_app_distr, <- Hr. symmetry. apply rev_involutive. }
  exists l, (rev r). repeat split.
  - rewrite <- Hu. exact Hs.
  - exact Hl.
  - apply Forall_rev, Hsp.
  - intros c t Ht. apply (Hhead c (t ++ rev r)).
    rewrite Hu, Ht. reflexivity.
  - intros c t Ht. apply (Hlast c (rev t)).
    rewrite <- (rev_involutive w), Ht, rev_app_distr. reflexivity.
Qed.

Lemma TrimmedBy_strip_by p s t : TrimmedBy p s t -> t = strip_by p s.
Proof.
  intros (l & r & -> & Hl & Hr & Hhead & Hlast).
  unfold strip_by. rewrite lstrip_by_skip by exact Hl.
  destruct t as [|c t].
  - simpl. rewrite (lstrip_by_all _ _ Hr). reflexivity.
  - simpl. rewrite (Hhead c t eq_refl).
    change (c :: t ++ r) with ((c :: t) ++ r).
    rewrite rev_app_distr, lstrip_by_skip by (apply Forall_rev, Hr).
    destruct (exists_last (l := c :: t)) as (t' & c' & Ht); [discriminate|].
    rewrite Ht, rev_app_distr. simpl.
    rewrite (Hlast c' t' Ht). simpl. rewrite rev_involutive. reflexivity.
Qed.

Lemma strip_by_between p l t r :
  Forall (fun c => p c = true) l -> Forall (fun c => p c = true) r ->
  clean_ends p t ->
  strip_by p (l ++ t ++ r) = t.
Proof.
  intros Hl Hr Ht. symmetry. apply TrimmedBy_strip_by.
  exists l, r. repeat split; try assumption; apply Ht.
Qed.

Lemma strip_by_clean p t : clean_ends p t -> strip_by p t = t.
Proof.
  intros H. pose proof (strip_by_between p [] t [] (Forall_nil _)
                          (Forall_nil _) H) as E.
  rewrite app_nil_r in E. exact E.
Qed.

Lemma strip_by_fixed p t : strip_by p t = t -> clean_ends p t.
Proof.
  intros H. destruct (strip_by_TrimmedBy p t) as (l & r & _ & _ & _ & Hc).
  rewrite H in Hc. exact Hc.
Qed.

Lemma lstrip_is_lstrip_by s : lstrip s = lstrip_by is_space s.
Proof. induction s as [|c s IH]; simpl; [|rewrite IH]; reflexivity. Qed.

Lemma strip_is_strip_by s : strip s = strip_by is_space s.
Proof.
  unfold strip, rstrip, strip_by. rewrite !lstrip_is_lstrip_by. reflexivity.
Qed.

Lemma clean_ends_app p a b :
  a <> [] -> (forall c a', a = c :: a' -> p c = false) ->
  (forall c b', b = b' ++ [c] -> p c = false) -> b <> [] ->
  clean_ends p (a ++ b).
Proof.
  intros Ha Hhead Hlast Hb. split.
  - intros c t' H. destruct a as [|x a]; [contradiction|].
    injection H as -> _. apply (Hhead c a eq_refl).
  - intros c t' H.
    destruct (exists_last Hb) as (b' & y & ->).
    rewrite app_assoc in H. apply app_inj_tail in H as [_ ->].
    apply (Hlast c b' eq_refl).
Qed.

Lemma clean_ends_wrapped p x t y :
  p x = false -> p y = false -> clean_ends p (x :: t ++ [y]).
Proof.
  intros Hx Hy. split.
  - intros c t' H. injection H as <- _. exact Hx.
  - intros c t' H. change (x :: t ++ [y]) with ((x :: t) ++ [y]) in H.
    apply app_inj_tail in H as [_ <-]. exact Hy.
Qed.

Lemma split_once_at sep a b :
  has_char sep a = false -> split_once sep (a ++ sep :: b) = (a, b).
Proof.
  unfold has_char. induction a as [|c a IH]; simpl.
  - rewrite N.eqb_refl. reflexivity.
  - intros H. apply orb_false_iff in H as [Hc Ha].
    rewrite N.eqb_sym, Hc, (IH Ha). reflexivity.
Qed.

(** The name and value of a line known to start with a name, to hold
    [=], and to be trimmed already. *)
Lemma dotenv_line_of_parts k0 v0 :
  k0 <> [] -> clean_ends is_space (k0 ++ 61%N :: v0) ->
  starts_with (lit "#") k0 = false ->
  has_char 61%N k0 = false ->
  forall l r,
    Forall (fun c => is_space c = true) l ->
    Forall (fun c => is_space c = true) r ->
    dotenv_line (l ++ (k0 ++ 61%N :: v0) ++ r)
    = Some (strip k0,
            strip_by (N.eqb 39) (strip_by (N.eqb 34) (strip v0))).
Proof.
  intros Hne Hends Hhash Heq l r Hl Hr. unfold dotenv_line. cbv zeta.
  repeat match goal with
         | |- context [strip ?x] =>
             lazymatch x with
             | context [r] =>
                 replace (strip x) with (k0 ++ 61%N :: v0)
                   by (symmetry; rewrite strip_is_strip_by;
                       apply strip_by_between; assumption)
             end
         end.
  destruct k0 as [|c k0]; [contradiction|].
  cbn [app]. cbn [app] in Hhash.
  replace (starts_with (lit "#") (c :: k0 ++ 61%N :: v0)) with false
    by (symmetry; exact Hhash).
  replace (has_char 61%N (c :: k0 ++ 61%N :: v0)) with true.
  - cbn [orb negb].
    change (c :: k0 ++ 61%N :: v0) with ((c :: k0) ++ 61%N :: v0).
    rewrite (split_once_at _ _ _ Heq). reflexivity.
  - symmetry. unfold has_char. apply existsb_exists. exists 61%N.
    split; [|apply N.eqb_refl].
    right. apply in_or_app. right. left. reflexivity.
Qed.

Ltac flatten_in H :=
  do 4 (cbn [app] in H; rewrite <- ?app_assoc in H).

(** X6: a line written as [NAME=value], as [NAME="value"] or, indented
    and spaced, as [NAME = 'value'] is read back as that name and that
    value, without the quotes. *)
Theorem dotenv_line_reads_back K V :
  plain_name K -> plain_value V ->
  dotenv_line (K ++ lit "=" ++ V ++ newline) = Some (K, V)
  /\ dotenv_line (K ++ lit "=" ++ dq ++ V ++ dq ++ newline) = Some (K, V)
  /\ dotenv_line (lit "  " ++ K ++ lit " = '" ++ V ++ lit "'" ++ newline)
     = Some (K, V).
Proof.
  intros (Hne & Heq & HK & Hhash) (HV & HVd & HVs).
  assert (HKends : clean_ends is_space K).
  { apply strip_by_fixed. rewrite <- strip_is_strip_by. exact HK. }
  assert (HVends : clean_ends is_space V).
  { apply strip_by_fixed. rewrite <- strip_is_strip_by. exact HV. }
  apply strip_by_fixed in HVd as HVd'. apply strip_by_fixed in HVs as HVs'.
  assert (Hspace : Forall (fun c => is_space c = true) newline)
    by (repeat constructor).
  split; [|split].
  - pose proof (dotenv_line_of_parts K V Hne) as H.
    rewrite HK, HV, HVd, HVs in H.
    apply (H) with (l := []) (r := newline) in Hhash as H'; auto.
    + flatten_in H'. exact H'.
    + destruct V as [|v0 V0].
      * apply clean_ends_app; try assumption;
          [apply HKends| |discriminate].
        intros c b' Hb. destruct b' as [|? [|? ?]]; try discriminate Hb.
        injection Hb as <-. reflexivity.
      * apply clean_ends_app; try assumption;
          [apply HKends| |discriminate].
        intros c b' Hb. destruct HVends as [_ Hlast].
        destruct (exists_last (l := v0 :: V0)) as (V' & y & HVy);
          [discriminate|].
        rewrite HVy in Hb.
        change (61%N :: V' ++ [y]) with ((61%N :: V') ++ [y]) in Hb.
        apply app_inj_tail in Hb as [_ <-]. apply (Hlast y V' HVy).
  - pose proof (dotenv_line_of_parts K (dq ++ V ++ dq) Hne) as H.
    rewrite HK in H.
    assert (H1 : strip (dq ++ V ++ dq) = dq ++ V ++ dq).
    { rewrite strip_is_strip_by. apply strip_by_clean.
      apply (clean_ends_wrapped is_space 34%N V 34%N); reflexivity. }
    assert (H2 : strip_by (N.eqb 34) (dq ++ V ++ dq) = V).
    { apply strip_by_between;
        [repeat constructor | repeat constructor | exact HVd']. }
    assert (Hv : strip_by (N.eqb 39)
                   (strip_by (N.eqb 34) (strip (dq ++ V ++ dq))) = V).
    { rewrite H1, H2. exact HVs. }
    rewrite Hv in H.
    apply (H) with (l := []) (r := newline) in Hhash as H'; auto.
    + flatten_in H'. exact H'.
    + apply clean_ends_app; try assumption;
        [apply HKends| |discriminate].
      intros c b' Hb.
      change (61%N :: dq ++ V ++ dq) with ((61%N :: dq ++ V) ++ [34%N]) in Hb.
      apply app_inj_tail in Hb as [_ <-]. reflexivity.
  - pose proof (dotenv_line_of_parts (K ++ lit " ")
                  (lit " '" ++ V ++ lit "'")) as H.
    assert (Hk : strip (K ++ lit " ") = K).
    { rewrite strip_is_strip_by.
      apply (strip_by_between is_space [] K (lit " "));
        [constructor | repeat constructor | exact HKends]. }
    assert (H1 : strip (lit " '" ++ V ++ lit "'") = lit "'" ++ V ++ lit "'").
    { rewrite strip_is_strip_by.
      replace (lit " '" ++ V ++ lit "'")
        with (lit " " ++ (lit "'" ++ V ++ lit "'") ++ [])
        by (rewrite app_nil_r; reflexivity).
      apply (strip_by_between is_space (lit " ") (lit "'" ++ V ++ lit "'") []).
      - repeat constructor.
      - constructor.
      - apply (clean_ends_wrapped is_space 39%N V 39%N); reflexivity. }
    assert (H2 : strip_by (N.eqb 34) (lit "'" ++ V ++ lit "'")
                 = lit "'" ++ V ++ lit "'").
    { apply strip_by_clean.
      apply (clean_ends_wrapped (N.eqb 34) 39%N V 39%N); reflexivity. }
    assert (H3 : strip_by (N.eqb 39) (lit "'" ++ V ++ lit "'") = V).
    { apply (strip_by_between (N.eqb 39) (lit "'") V (lit "'"));
        [repeat constructor | repeat constructor | exact HVs']. }
    assert (Hv : strip_by (N.eqb 39)
                   (strip_by (N.eqb 34) (strip (lit " '" ++ V ++ lit "'")))
                 = V).
    { rewrite H1, H2. exact H3. }
    rewrite Hk, Hv in H.
    assert (H' : dotenv_line
                   (lit "  "
                    ++ ((K ++ lit " ") ++ 61%N :: lit " '" ++ V ++ lit "'")
                    ++ newline) = Some (K, V)); [|flatten_in H'; exact H'].
    apply H; try assumption.
    + destruct K; [contradiction | discriminate].
    + apply clean_ends_app.
      * destruct K; [contradiction | discriminate].
      * intros c t' Ht. destruct K as [|x K]; [contradiction|].
        injection Ht as -> _. apply (proj1 HKends c K eq_refl).
      * intros c b' Hb.
        change (61%N :: lit " '" ++ V ++ lit "'")
          with ((61%N :: lit " '" ++ V) ++ [39%N]) in Hb.
        apply app_inj_tail in Hb as [_ <-]. reflexivity.
      * discriminate.
    + destruct K as [|x K]; [contradiction|]. exact Hhash.
    + unfold has_char in *.
      apply not_true_is_false. intros Hex.
      apply existsb_exists in Hex as (x & Hin & Hx).
      apply in_app_or in Hin as [Hin|[<-|[]]]; [|discriminate Hx].
      assert (Hk' : existsb (N.eqb 61) K = true)
        by (apply existsb_exists; exists x; auto).
      rewrite Hk' in Heq. discriminate Heq.
    + repeat constructor.
Qed.

(** X7: when neither the environment nor a line of the file gives the
    credential a value, every search the server then makes is the
    missing-credential outcome, and nothing is requested. *)
Theorem no_credential_anywhere py_repr lines env urlopen query max_items :
  lookup (lit "RAINFOREST_API_KEY") env = None ->
  Forall (fun line =>
            forall v, dotenv_line line <> Some (lit "RAINFOREST_API_KEY", v))
    lines ->
  search_rainforest py_repr (startup_config (_load_dotenv (Some lines) env))
    urlopen query max_items
  = ([], Ok (failed (lit "Missing RAINFOREST_API_KEY environment variable."))).
Proof.
  intros Henv Hlines. unfold search_rainforest, startup_config.
  cbn [RAINFOREST_API_KEY _load_dotenv].
  destruct (lookup (lit "RAINFOREST_API_KEY") (load_lines lines env))
    as [key|] eqn:Hkey; [|reflexivity].
  apply load_lines_values in Hkey
    as [Hkey|(_ & _ & line & Hin & Hline)].
  - rewrite Henv in Hkey. discriminate Hkey.
  - rewrite Forall_forall in Hlines. destruct (Hlines line Hin key Hline).
Qed.

End Environment.

Section Gateway.

Variable py_repr : pyval -> pystr.

(** ** What search_rainforest returns and sends *)

(** X8: an outcome has results or an error, never both: either there is
    no error and one request was answered by a parsed reply, or the
    result list is empty and the error is a non-empty message. *)
Theorem outcome_has_results_or_error cfg urlopen query max_items sent out :
  search_rainforest py_repr cfg urlopen query max_items = (sent, Ok out) ->
  (error out = None
   /\ exists req data, sent = [req] /\ urlopen req = Parsed data)
  \/ (results out = []
      /\ exists c message, error out = Some (c :: message)).
Proof.
  unfold search_rainforest.
  destruct (RAINFOREST_API_KEY cfg) as [[|c key]|].
  - intros H. injection H as _ <-. right. split; [reflexivity|].
    do 2 eexists. reflexivity.
  - destruct (urlencode _) as [params|e]; [|discriminate].
    intros H. injection H as <- H.
    destruct (urlopen _) as [code reason|reason|message|data] eqn:Hnet.
    + apply Ok_inj in H as <-. right. split; [reflexivity|].
      do 2 eexists. reflexivity.
    + apply Ok_inj in H as <-. right. split; [reflexivity|].
      do 2 eexists. reflexivity.
    + apply Ok_inj in H as <-. right. split; [reflexivity|].
      do 2 eexists. reflexivity.
    + apply bind_Ok in H as (cleaned & _ & H). apply Ok_inj in H as <-.
      left. split; [reflexivity|]. do 2 eexists. split; [reflexivity|].
      exact Hnet.
  - intros H. injection H as _ <-. right. split; [reflexivity|].
    do 2 eexists. reflexivity.
Qed.

Lemma utf8_char_bytes c b :
  utf8_char c = Ok b -> Forall (fun x => (x < 256)%N) b.
Proof.
  unfold utf8_char.
  assert (Hall : forall bs, Forall (fun x => (x < 256)%N) bs ->
                            Ok bs = Ok b ->
                            Forall (fun x => (x < 256)%N) b)
    by (intros bs Hbs Heq; congruence).
  assert (Hmod : forall x, (128 + x mod 64 < 256)%N)
    by (intros x; pose proof (N.mod_lt x 64); lia).
  destruct (N.ltb_spec c 128).
  { intros H'. refine (Hall _ _ H'). repeat constructor. lia. }
  destruct (N.ltb_spec c 2048).
  { intros H'. refine (Hall _ _ H').
    assert (c / 64 < 32)%N by (apply N.Div0.div_lt_upper_bound; lia).
    repeat (apply Forall_cons; [first [apply Hmod | lia]|]). constructor. }
  destruct ((55296 <=? c)%N && (c <=? 57343)%N); [discriminate|].
  destruct (N.ltb_spec c 65536).
  { intros H'. refine (Hall _ _ H').
    assert (c / 4096 < 16)%N by (apply N.Div0.div_lt_upper_bound; lia).
    repeat (apply Forall_cons; [first [apply Hmod | lia]|]). constructor. }
  destruct (N.ltb_spec c 1114112); [|discriminate].
  intros H'. refine (Hall _ _ H').
  assert (c / 262144 < 5)%N by (apply N.Div0.div_lt_upper_bound; lia).
  repeat (apply Forall_cons; [first [apply Hmod | lia]|]). constructor.
Qed.

Lemma encode_utf8_bytes s bs :
  encode_utf8 s = Ok bs -> Forall (fun x => (x < 256)%N) bs.
Proof.
  revert bs. induction s as [|c s IH]; simpl; intros bs H.
  - apply Ok_inj in H as <-. constructor.
  - apply bind_Ok in H as (b & Hb & H).
    apply bind_Ok in H as (bs' & Hbs & H). apply Ok_inj in H as <-.
    apply Forall_app. split; [apply (utf8_char_bytes _ _ Hb) | apply IH, Hbs].
Qed.

Lemma hex_digit_safe n : (n < 16)%N -> url_safe (hex_digit n) = true.
Proof.
  intros H. unfold hex_digit, url_safe, always_safe.
  destruct (N.ltb_spec n 10).
  - replace ((48 <=? 48 + n) && (48 + n <=? 57))%N with true;
      [rewrite !orb_true_r; reflexivity|].
    symmetry. apply andb_true_iff. split; apply N.leb_le; lia.
  - replace ((65 <=? 55 + n) && (55 + n <=? 90))%N with true; [reflexivity|].
    symmetry. apply andb_true_iff. split; apply N.leb_le; lia.
Qed.

Lemma quote_byte_safe b :
  (b < 256)%N -> forallb url_safe (quote_byte b) = true.
Proof.
  intros H. unfold quote_byte.
  destruct (b =? 32)%N; [reflexivity|].
  destruct (always_safe b) eqn:Hb.
  - cbn [forallb]. unfold url_safe. rewrite Hb. reflexivity.
  - cbn [forallb]. rewrite !hex_digit_safe; [reflexivity| |].
    + apply N.mod_lt. discriminate.
    + apply N.Div0.div_lt_upper_bound. exact H.
Qed.

(** What [quote_plus] returns holds none of the characters that
    separate the parts of a URL. *)
Lemma quote_plus_safe s q :
  quote_plus s = Ok q -> forallb url_safe q = true.
Proof.
  unfold quote_plus. intros H. apply bind_Ok in H as (bs & Hbs & H).
  apply Ok_inj in H as <-. apply encode_utf8_bytes in Hbs.
  induction Hbs as [|b bs Hb _ IH]; [reflexivity|].
  cbn [flat_map]. rewrite forallb_app, (quote_byte_safe _ Hb), IH.
  reflexivity.
Qed.

(** X9: a search sends one request at most, and never a second one.
    The request has the fixed User-Agent and a timeout of 15 seconds,
    and its URL is the endpoint with exactly the four parameters: the
    key, the domain and the query are in it percent-encoded, so that none
    of them can bring in a character such as [&], [=] or [#]. *)
Theorem request_is_well_formed cfg urlopen query max_items sent r :
  search_rainforest py_repr cfg urlopen query max_items = (sent, r) ->
  (List.length sent <= 1)%nat
  /\ forall req,
       sent = [req] ->
       headers req = [(lit "User-Agent", lit "rainforest-quick-demo/1.0")]
       /\ timeout req = 15%Z
       /\ exists key k d q,
            RAINFOREST_API_KEY cfg = Some key
            /\ quote_plus key = Ok k
            /\ quote_plus (AMAZON_DOMAIN cfg) = Ok d
            /\ quote_plus query = Ok q
            /\ url req
               = RAINFOREST_ENDPOINT ++ lit "?api_key=" ++ k
                 ++ lit "&type=search&amazon_domain=" ++ d
                 ++ lit "&search_term=" ++ q
            /\ forallb url_safe (k ++ d ++ q) = true.
Proof.
  unfold search_rainforest.
  destruct (RAINFOREST_API_KEY cfg) as [[|c key]|].
  - intros H. injection H as <- _. split; [simpl; lia|]. discriminate.
  - destruct (urlencode _) as [params|e] eqn:Hp.
    + intros H. injection H as <- _. split; [simpl; lia|].
      intros req Hreq. apply (f_equal (hd req)) in Hreq. simpl in Hreq.
      subst req. cbn [headers timeout url].
      split; [reflexivity|]. split; [reflexivity|].
      cbn [urlencode] in Hp.
      apply bind_Ok in Hp as (k1 & H1 & Hp). vm_compute in H1.
      apply Ok_inj in H1 as <-.
      apply bind_Ok in Hp as (k & Hk & Hp).
      apply bind_Ok in Hp as (r1 & Hr1 & Hp). apply Ok_inj in Hp as <-.
      apply bind_Ok in Hr1 as (k2 & H2 & Hr1). vm_compute in H2.
      apply Ok_inj in H2 as <-.
      apply bind_Ok in Hr1 as (v2 & Hv2 & Hr1). vm_compute in Hv2.
      apply Ok_inj in Hv2 as <-.
      apply bind_Ok in Hr1 as (r2 & Hr2 & Hr1). apply Ok_inj in Hr1 as <-.
      apply bind_Ok in Hr2 as (k3 & H3 & Hr2). vm_compute in H3.
      apply Ok_inj in H3 as <-.
      apply bind_Ok in Hr2 as (d & Hd & Hr2).
      apply bind_Ok in Hr2 as (r3 & Hr3 & Hr2). apply Ok_inj in Hr2 as <-.
      apply bind_Ok in Hr3 as (k4 & H4 & Hr3). vm_compute in H4.
      apply Ok_inj in H4 as <-.
      apply bind_Ok in Hr3 as (q & Hq & Hr3). apply Ok_inj in Hr3 as <-.
      exists (c :: key), k, d, q.
      split; [reflexivity|]. split; [exact Hk|]. split; [exact Hd|].
      split; [exact Hq|]. split.
      * reflexivity.
      * rewrite !forallb_app, (quote_plus_safe _ _ Hk),
          (quote_plus_safe _ _ Hd), (quote_plus_safe _ _ Hq). reflexivity.
    + intros H. injection H as <- _. split; [simpl; lia|]. discriminate.
  - intros H. injection H as <- _. split; [simpl; lia|]. discriminate.
Qed.

(** X10: the bound is Python's slice stop.  With the bound 0 a reply
    gives no results, whatever its items are; with a bound of minus [n]
    the last [n] items are left out, and the others are all normalised. *)
Theorem bound_zero_or_negative d raw :
  get_default d (lit "search_results") (PList []) = PList raw ->
  clean py_repr (PDict d) 0 = Ok []
  /\ forall n, (0 < n)%nat ->
       clean py_repr (PDict d) (- Z.of_nat n)
       = map_result (normalize py_repr) (firstn (List.length raw - n) raw).
Proof.
  intros Hraw. unfold clean. cbn [dict_of bind]. rewrite Hraw.
  cbn [sliced bind]. split; [reflexivity|].
  intros n Hn. unfold slice_to.
  destruct (Z.leb_spec 0 (- Z.of_nat n)); [lia|].
  replace (Z.to_nat (Z.of_nat (List.length raw) + - Z.of_nat n))
    with (List.length raw - n)%nat by lia.
  reflexivity.
Qed.

Lemma resolve_price_por item price :
  resolve_price item = Ok price -> exists x, price = por x (PStr []).
Proof.
  unfold resolve_price. intros H. apply bind_Ok in H as (x & _ & H).
  apply Ok_inj in H as <-. exists x. reflexivity.
Qed.

(** X11: a result dictionary has the seven keys, in their order.  Its
    title is never empty; its link is empty only when the raw item has
    neither a link nor an ASIN; its price is a value the item gave or the
    empty string; rating and ratings total are the raw values. *)
Theorem normalized_result_shape item r :
  normalize py_repr (PDict item) = Ok r ->
  map fst r
  = [ lit "title"; lit "asin"; lit "link"; lit "image"; lit "price";
      lit "rating"; lit "ratings_total" ]
  /\ truthy (get r (lit "title")) = true
  /\ (truthy (get r (lit "link")) = false <->
      truthy (get item (lit "link")) = false
      /\ truthy (get item (lit "asin")) = false)
  /\ (truthy (get r (lit "price")) = true \/ get r (lit "price") = PStr [])
  /\ get r (lit "rating") = get item (lit "rating")
  /\ get r (lit "ratings_total") = get item (lit "ratings_total").
Proof.
  intros H. unfold normalize in H. cbn [dict_of bind] in H.
  destruct (resolve_price item) as [price|e] eqn:Hprice; [|discriminate H].
  cbn [bind] in H. apply Ok_inj in H as <-.
  apply resolve_price_por in Hprice as [x ->].
  match goal with
  | |- context [get ?d (lit "title")] =>
      change d with
        (result_dict
           (por (get item (lit "title")) (PStr (lit "(no title)")))
           (por (get item (lit "asin")) (PStr []))
           (por (get item (lit "link"))
              (if truthy (por (get item (lit "asin")) (PStr []))
               then PStr (lit "https://www.amazon.com/dp/"
                          ++ py_str py_repr
                               (por (get item (lit "asin")) (PStr [])))
               else PStr []))
           (por (get item (lit "image")) (PStr []))
           (por x (PStr []))
           (get item (lit "rating"))
           (get item (lit "ratings_total")))
  end.
  match goal with
  | |- context [get (result_dict ?t ?a ?l ?i ?p ?g ?n) _] =>
      destruct (result_dict_entries t a l i p g n)
        as (-> & _ & -> & _ & -> & -> & ->)
  end.
  split; [reflexivity|]. split; [|split; [|split; [|split; reflexivity]]].
  - unfold por. destruct (truthy (get item (lit "title"))) eqn:E;
      [exact E | reflexivity].
  - unfold por.
    destruct (truthy (get item (lit "link"))) eqn:El.
    + rewrite El. split; [discriminate | intros [H _]; discriminate H].
    + destruct (truthy (get item (lit "asin"))) eqn:Ea.
      * rewrite Ea. split; [discriminate | intros [_ H]; discriminate H].
      * split; [auto | reflexivity].
  - unfold por. destruct (truthy x) eqn:E; [left; exact E | right; reflexivity].
Qed.

End Gateway.

Section Page.

Variable py_repr : pyval -> pystr.

(** ** Parts of a text and of its bytes *)

Lemma part_refl w : part w w.
Proof. exists [], []. rewrite app_nil_r. reflexivity. Qed.

Lemma part_app_l w s t : part w s -> part w (s ++ t).
Proof.
  intros (a & b & ->). exists a, (b ++ t). rewrite <- !app_assoc. reflexivity.
Qed.

Lemma part_app_r w s t : part w s -> part w (t ++ s).
Proof.
  intros (a & b & ->). exists (t ++ a), b. rewrite <- !app_assoc. reflexivity.
Qed.

Lemma part_concat s l : In s l -> part s (List.concat l).
Proof.
  induction l as [|x l IH]; [intros []|]. intros [->|H]; simpl.
  - apply part_app_l, part_refl.
  - apply part_app_r, IH, H.
Qed.

Lemma part_trans w s t : part w s -> part s t -> part w t.
Proof.
  intros (a & b & ->) (c & d & ->). exists (c ++ a), (b ++ d).
  rewrite <- !app_assoc. reflexivity.
Qed.

Lemma starts_with_prefix w s :
  starts_with w s = true -> exists b, s = w ++ b.
Proof.
  revert s. induction w as [|x w IH]; intros s H; [exists s; reflexivity|].
  destruct s as [|y s]; [discriminate H|]. cbn [starts_with] in H.
  apply andb_prop in H as [Hx H]. apply N.eqb_eq in Hx. subst y.
  destruct (IH _ H) as [b ->]. exists b. reflexivity.
Qed.

Lemma ends_with_suffix w s :
  starts_with (rev w) (rev s) = true -> exists a, s = a ++ w.
Proof.
  intros H. apply starts_with_prefix in H as [b H].
  exists (rev b). rewrite <- (rev_involutive s), H, rev_app_distr.
  rewrite rev_involutive. reflexivity.
Qed.

(** A field between the end of one template piece and the start of the
    next. *)
Lemma part_between wl wr L R t :
  starts_with (rev wl) (rev L) = true -> starts_with wr R = true ->
  part (wl ++ t ++ wr) (L ++ t ++ R).
Proof.
  intros HL HR. apply ends_with_suffix in HL as [a ->].
  apply starts_with_prefix in HR as [b ->].
  exists a, b. rewrite <- !app_assoc. reflexivity.
Qed.

Lemma encode_utf8_app a b :
  encode_utf8 (a ++ b)
  = (x <- encode_utf8 a ;; y <- encode_utf8 b ;; Ok (x ++ y)).
Proof.
  induction a as [|c a IH]; cbn [app encode_utf8 bind].
  - destruct (encode_utf8 b); reflexivity.
  - destruct (utf8_char c) as [x|e]; cbn [bind]; [|reflexivity].
    rewrite IH. destruct (encode_utf8 a) as [y|e]; cbn [bind]; [|reflexivity].
    destruct (encode_utf8 b) as [z|e]; cbn [bind]; [|reflexivity].
    rewrite app_assoc. reflexivity.
Qed.

(** The bytes of a text hold the bytes of each of its parts. *)
Lemma shows_part s out w :
  encode_utf8 s = Ok out -> part w s -> shows out w.
Proof.
  intros H (a & b & ->). rewrite !encode_utf8_app in H.
  apply bind_Ok in H as (x & _ & H). apply bind_Ok in H as (y & Hy & H).
  apply bind_Ok in Hy as (bs & Hw & Hy). apply bind_Ok in Hy as (z & _ & Hy).
  apply Ok_inj in Hy as <-. apply Ok_inj in H as <-.
  exists bs. split; [exact Hw|]. exists x, z. reflexivity.
Qed.

(** ** Texts that can be encoded *)

Lemma utf8_char_encodable c :
  (exists b, utf8_char c = Ok b) <-> encodable [c] = true.
Proof.
  unfold utf8_char, encodable. cbn [forallb]. rewrite andb_true_r.
  destruct (N.ltb_spec c 128) as [H|H].
  { replace (c <? 1114112)%N with true by (symmetry; apply N.ltb_lt; lia).
    replace (55296 <=? c)%N with false by (symmetry; apply N.leb_gt; lia).
    split; [reflexivity | eexists; reflexivity]. }
  destruct (N.ltb_spec c 2048) as [H0|H0].
  { replace (c <? 1114112)%N with true by (symmetry; apply N.ltb_lt; lia).
    replace (55296 <=? c)%N with false by (symmetry; apply N.leb_gt; lia).
    split; [reflexivity | eexists; reflexivity]. }
  destruct ((55296 <=? c)%N && (c <=? 57343)%N) eqn:Hs.
  { rewrite andb_false_r.
    split; [intros [b Hb]; discriminate Hb | discriminate]. }
  cbn [negb]. rewrite andb_true_r.
  destruct (N.ltb_spec c 65536) as [H1|H1].
  { replace (c <? 1114112)%N with true by (symmetry; apply N.ltb_lt; lia).
    split; [reflexivity | eexists; reflexivity]. }
  destruct (N.ltb_spec c 1114112) as [H2|H2].
  - split; [reflexivity | eexists; reflexivity].
  - split; [intros [b Hb]; discriminate Hb | discriminate].
Qed.

Lemma encode_utf8_encodable s :
  (exists bs, encode_utf8 s = Ok bs) <-> encodable s = true.
Proof.
  induction s as [|c s IH].
  - split; [reflexivity | exists []; reflexivity].
  - change (c :: s) with ([c] ++ s).
    unfold encodable in *. rewrite forallb_app, andb_true_iff.
    fold (encodable [c]). rewrite <- utf8_char_encodable, <- IH.
    cbn [app encode_utf8]. split.
    + intros [bs H]. apply bind_Ok in H as (b & Hb & H).
      apply bind_Ok in H as (bs' & Hbs & _). split; eexists; eassumption.
    + intros [[b Hb] [bs Hbs]]. rewrite Hb, Hbs. eexists. reflexivity.
Qed.

Lemma encodable_app a b : encodable (a ++ b) = encodable a && encodable b.
Proof. apply forallb_app. Qed.

Lemma encodable_escape s : encodable (escape s) = encodable s.
Proof.
  unfold escape. induction s as [|c s IH]; [reflexivity|].
  cbn [flat_map]. rewrite encodable_app, IH.
  change (c :: s) with ([c] ++ s). rewrite (encodable_app [c] s). f_equal.
  unfold escape_char.
  destruct (N.eqb_spec c 38) as [->|_]; [reflexivity|].
  destruct (N.eqb_spec c 60) as [->|_]; [reflexivity|].
  destruct (N.eqb_spec c 62) as [->|_]; [reflexivity|].
  destruct (N.eqb_spec c 34) as [->|_]; [reflexivity|].
  destruct (N.eqb_spec c 39) as [->|_]; reflexivity.
Qed.

Lemma template_encodable :
  forallb encodable
    [ HEAD_BEFORE_QUERY; HEAD_AFTER_QUERY; BANNER_OPEN; DIV_CLOSE;
      NO_RESULTS; TAIL_BEFORE_DOMAIN; TAIL_AFTER_DOMAIN ] = true.
Proof. vm_compute. reflexivity. Qed.

(** The text of a page without results. *)
Lemma render_text_empty cfg query e :
  render_text py_repr cfg query [] e
  = Ok ((HEAD_BEFORE_QUERY ++ escape query ++ HEAD_AFTER_QUERY)
        ++ (banner e ++ NO_RESULTS)
        ++ TAIL_BEFORE_DOMAIN ++ escape (AMAZON_DOMAIN cfg)
        ++ TAIL_AFTER_DOMAIN).
Proof. reflexivity. Qed.

Lemma encodable_banner e :
  encodable (banner e)
  = encodable (match e with Some m => m | None => [] end).
Proof.
  destruct e as [[|c m]|]; [reflexivity| |reflexivity].
  unfold banner. rewrite !encodable_app, encodable_escape.
  pose proof template_encodable as T. cbn [forallb] in T.
  repeat (apply andb_prop in T; let P := fresh "T" in destruct T as [P T]).
  rewrite T2, T3, andb_true_r. reflexivity.
Qed.

(** X13: a page without results (every error page is one) is rendered
    exactly when the query, the configured domain and the error text hold
    no character UTF-8 cannot encode, that is no lone surrogate. *)
Theorem error_page_renders_iff cfg query e :
  (exists out, render_html py_repr cfg query [] e = Ok out)
  <-> encodable query = true
      /\ encodable (AMAZON_DOMAIN cfg) = true
      /\ encodable (match e with Some m => m | None => [] end) = true.
Proof.
  unfold render_html. rewrite render_text_empty. cbn [bind].
  rewrite encode_utf8_encodable, !encodable_app, !encodable_escape,
    encodable_banner.
  pose proof template_encodable as T. cbn [forallb] in T.
  repeat (apply andb_prop in T; let P := fresh "T" in destruct T as [P T]).
  rewrite T0, T1, T4, T5, T6, !andb_true_r, !andb_true_iff. cbn [andb].
  tauto.
Qed.

(** ** What a page shows *)

Lemma Forall2_In_left {A B} (R : A -> B -> Prop) l l' a :
  Forall2 R l l' -> In a l -> exists b, In b l' /\ R a b.
Proof.
  induction 1 as [|x y l l' Hxy _ IH]; [intros []|].
  intros [<-|H].
  - exists y. split; [left; reflexivity | exact Hxy].
  - destruct (IH H) as (b & Hb & Hab). exists b. split; [right|]; assumption.
Qed.

Lemma template_joints :
  starts_with (rev VALUE_OPEN) (rev HEAD_BEFORE_QUERY) = true
  /\ starts_with dq HEAD_AFTER_QUERY = true
  /\ starts_with (rev (lit "Domain: ")) (rev TAIL_BEFORE_DOMAIN) = true
  /\ starts_with (rev TITLE_OPEN) (rev CARD_2) = true
  /\ starts_with (lit "</div>") CARD_3 = true
  /\ starts_with (rev PRICE_OPEN) (rev CARD_3) = true
  /\ starts_with (lit "</span>") CARD_4 = true
  /\ starts_with (rev ASIN_OPEN) (rev CARD_4) = true
  /\ starts_with (lit "</span>") CARD_5 = true.
Proof. vm_compute. repeat split. Qed.

(** The three fields of a card, each in its element. *)
Lemma card_parts r card :
  render_card py_repr r = Ok card ->
  part (TITLE_OPEN
        ++ escape (py_str py_repr (get_default r (lit "title") (PStr [])))
        ++ lit "</div>") card
  /\ part (PRICE_OPEN
           ++ escape (py_str py_repr (get_default r (lit "price") (PStr [])))
           ++ lit "</span>") card
  /\ part (ASIN_OPEN
           ++ escape (py_str py_repr (get_default r (lit "asin") (PStr [])))
           ++ lit "</span>") card.
Proof.
  unfold render_card. intros H.
  apply bind_Ok in H as (rt & _ & H). apply bind_Ok in H as (img & _ & H).
  apply bind_Ok in H as (href & _ & H). apply Ok_inj in H as <-.
  destruct template_joints as (_ & _ & _ & J2 & J3 & J3' & J4 & J4' & J5).
  split; [|split].
  - do 4 apply part_app_r.
    apply part_between; [exact J2 | apply starts_with_app_l, J3].
  - do 6 apply part_app_r.
    apply part_between; [exact J3' | apply starts_with_app_l, J4].
  - do 8 apply part_app_r.
    apply part_between; [exact J4' | apply starts_with_app_l, J5].
Qed.

(** X12: the bytes of a page hold the query, escaped, as the value of the
    search field; the configured domain, escaped, in the footer; the error
    text, escaped, in the banner; and for every result its title, price
    and ASIN, escaped, each in its element.  No result is left out. *)
Theorem page_shows_its_inputs cfg query rs e out :
  render_html py_repr cfg query rs e = Ok out ->
  shows out (VALUE_OPEN ++ escape query ++ dq)
  /\ shows out (lit "Domain: " ++ escape (AMAZON_DOMAIN cfg))
  /\ (forall c m, e = Some (c :: m) ->
      shows out (BANNER_OPEN ++ escape (c :: m) ++ DIV_CLOSE))
  /\ forall r, In r rs ->
       shows out
         (TITLE_OPEN
          ++ escape (py_str py_repr (get_default r (lit "title") (PStr [])))
          ++ lit "</div>")
       /\ shows out
            (PRICE_OPEN
             ++ escape (py_str py_repr
                          (get_default r (lit "price") (PStr [])))
             ++ lit "</span>")
       /\ shows out
            (ASIN_OPEN
             ++ escape (py_str py_repr (get_default r (lit "asin") (PStr [])))
             ++ lit "</span>").
Proof.
  unfold render_html, render_text. intros H.
  apply bind_Ok in H as (text & Htext & H).
  apply bind_Ok in Htext as (listed & Hl & Htext). apply Ok_inj in Htext as <-.
  destruct template_joints as (J0 & J0' & J1 & _).
  split; [|split; [|split]].
  - apply (shows_part _ _ _ H). apply part_app_l.
    apply part_between; assumption.
  - apply (shows_part _ _ _ H). do 2 apply part_app_r.
    apply ends_with_suffix in J1 as [a ->].
    exists a, TAIL_AFTER_DOMAIN. rewrite <- !app_assoc. reflexivity.
  - intros c m ->. apply (shows_part _ _ _ H).
    apply part_app_r, part_app_l, part_app_l, part_refl.
  - intros r Hr.
    assert (Hcard : exists card,
               render_card py_repr r = Ok card /\ part card listed).
    { destruct rs as [|r0 rs0]; [destruct Hr|].
      unfold listing in Hl.
      apply bind_Ok in Hl as (cards & Hc & Hl). apply Ok_inj in Hl as <-.
      apply map_result_Ok in Hc.
      destruct (Forall2_In_left _ _ _ _ Hc Hr) as (card & Hin & Hcard).
      exists card. split; [exact Hcard|].
      apply part_app_r, part_app_l, part_concat, Hin. }
    destruct Hcard as (card & Hcard & Hpart).
    assert (Hin : part card
                    ((HEAD_BEFORE_QUERY ++ escape query ++ HEAD_AFTER_QUERY)
                     ++ (banner e ++ listed)
                     ++ TAIL_BEFORE_DOMAIN ++ escape (AMAZON_DOMAIN cfg)
                     ++ TAIL_AFTER_DOMAIN))
      by (apply part_app_r, part_app_l, part_app_r, Hpart).
    destruct (card_parts _ _ Hcard) as (Ht & Hp & Ha).
    repeat split; apply (shows_part _ _ _ H);
      eapply part_trans; eassumption.
Qed.

(** A result of the list has its card in the page. *)
Lemma page_has_card cfg query rs e out r :
  render_html py_repr cfg query rs e = Ok out -> In r rs ->
  exists text card,
    encode_utf8 text = Ok out
    /\ render_card py_repr r = Ok card /\ part card text.
Proof.
  unfold render_html, render_text. intros H Hr.
  apply bind_Ok in H as (text & Htext & H).
  apply bind_Ok in Htext as (listed & Hl & Htext). apply Ok_inj in Htext as <-.
  destruct rs as [|r0 rs0]; [destruct Hr|].
  unfold listing in Hl.
  apply bind_Ok in Hl as (cards & Hc & Hl). apply Ok_inj in Hl as <-.
  apply map_result_Ok in Hc.
  destruct (Forall2_In_left _ _ _ _ Hc Hr) as (card & Hin & Hcard).
  eexists. exists card. split; [exact H|]. split; [exact Hcard|].
  apply part_app_r, part_app_l, part_app_r.
  apply part_app_r, part_app_l, part_concat, Hin.
Qed.

(** A page without results and with an error text: it is rendered when
    its texts can be encoded, and it has the banner and the notice. *)
Lemma error_page cfg query c m :
  encodable query = true -> encodable (AMAZON_DOMAIN cfg) = true ->
  encodable (c :: m) = true ->
  exists out,
    render_html py_repr cfg query [] (Some (c :: m)) = Ok out
    /\ shows out (BANNER_OPEN ++ escape (c :: m) ++ DIV_CLOSE)
    /\ shows out NO_RESULTS.
Proof.
  intros Hq Hd Hm. unfold render_html. rewrite render_text_empty.
  cbn [bind].
  match goal with
  | |- exists out, encode_utf8 ?t = Ok out /\ _ =>
      assert (Henc : exists out, encode_utf8 t = Ok out)
  end.
  { apply encode_utf8_encodable.
    rewrite !encodable_app, !encodable_escape, encodable_banner, Hq, Hd, Hm.
    pose proof template_encodable as T. cbn [forallb] in T.
    repeat (apply andb_prop in T; let P := fresh "T" in destruct T as [P T]).
    rewrite T0, T1, T4, T5, T6. reflexivity. }
  destruct Henc as [out Hout]. exists out. split; [exact Hout|].
  split; apply (shows_part _ _ _ Hout).
  - apply part_app_r, part_app_l, part_app_l, part_refl.
  - apply part_app_r, part_app_l, part_app_r, part_refl.
Qed.

(** ** do_GET from end to end *)

Lemma strip_idempotent s : strip (strip s) = strip s.
Proof.
  symmetry. apply Trimmed_strip.
  destruct (strip_Trimmed s) as (l & r & _ & _ & _ & Hhead & Hlast).
  exists [], []. rewrite app_nil_r.
  repeat split; try constructor; assumption.
Qed.

(** X15: the query a page is fetched for and pre-filled with is never
    empty and has no white space at its ends. *)
Theorem effective_query_never_blank qs q :
  effective_query qs = Ok q -> q <> [] /\ strip q = q.
Proof.
  unfold effective_query.
  assert (Hdefault : DEFAULT_QUERY <> [] /\ strip DEFAULT_QUERY = DEFAULT_QUERY)
    by (split; [discriminate | reflexivity]).
  destruct (lookup (lit "q") qs) as [[|v vs]|]; [discriminate| |].
  - destruct (strip v) as [|c t] eqn:Hv; intros H; apply Ok_inj in H as <-.
    + exact Hdefault.
    + split; [discriminate|]. rewrite <- Hv. apply strip_idempotent.
  - cbn. intros H. apply Ok_inj in H as <-. exact Hdefault.
Qed.

Lemma search_sends_at_most_one cfg urlopen query max_items :
  (List.length (fst (search_rainforest py_repr cfg urlopen query max_items))
   <= 1)%nat.
Proof.
  unfold search_rainforest.
  destruct (RAINFOREST_API_KEY cfg) as [[|c key]|];
    [simpl; lia | | simpl; lia].
  destruct (urlencode _); simpl; lia.
Qed.

(** X14: whatever reply [do_GET] writes has status 200, and at most one
    request was sent for it.  Under [/healthz] it is the plain text [ok]
    and nothing was sent, whatever the configuration and the query;
    elsewhere it is an HTML page that is not to be stored. *)
Theorem do_GET_replies_200 cfg urlopen path qs sent resp :
  do_GET py_repr cfg urlopen path qs = (sent, Ok resp) ->
  status resp = 200%Z
  /\ (List.length sent <= 1)%nat
  /\ (starts_with (lit "/healthz") path = true ->
      sent = [] /\ body resp = lit "ok"
      /\ response_headers resp
         = [(lit "Content-Type", lit "text/plain; charset=utf-8")])
  /\ (starts_with (lit "/healthz") path = false ->
      response_headers resp
      = [(lit "Content-Type", lit "text/html; charset=utf-8");
         (lit "Cache-Control", lit "no-store")]).
Proof.
  unfold do_GET. destruct (starts_with (lit "/healthz") path).
  - intros H. injection H as <- <-.
    repeat split; try reflexivity; try discriminate. simpl. lia.
  - destruct (effective_query qs) as [query|e]; [|discriminate].
    unfold serve.
    pose proof (search_sends_at_most_one cfg urlopen query 10) as Hone.
    destruct (search_rainforest py_repr cfg urlopen query 10)
      as [sent' payload].
    intros H. injection H as <- H.
    apply bind_Ok in H as (p & _ & H). apply bind_Ok in H as (html & _ & H).
    apply Ok_inj in H as <-.
    repeat split; try reflexivity; try discriminate. exact Hone.
Qed.

Lemma quote_plus_total s :
  encodable s = true -> exists q, quote_plus s = Ok q.
Proof.
  intros H. apply encode_utf8_encodable in H as [bs Hbs].
  unfold quote_plus. rewrite Hbs. eexists. reflexivity.
Qed.

(** With a credential, and when credential, domain and query can be
    encoded, one request is sent, and the same one whatever is answered. *)
Lemma search_rainforest_sends cfg query c key :
  RAINFOREST_API_KEY cfg = Some (c :: key) ->
  encodable (c :: key) = true -> encodable (AMAZON_DOMAIN cfg) = true ->
  encodable query = true ->
  exists req,
    forall urlopen max_items,
      search_rainforest py_repr cfg urlopen query max_items
      = ([req],
         match urlopen req with
         | Parsed data =>
             cleaned <- clean py_repr data max_items ;;
             Ok {| error := None; results := cleaned |}
         | failure =>
             match failure_message failure with
             | Some message => Ok (failed message)
             | None => Raise ValueError
             end
         end).
Proof.
  intros Hkey Hk Hd Hq. unfold search_rainforest. rewrite Hkey.
  apply quote_plus_total in Hk as [k Hk]. apply quote_plus_total in Hd as [d Hd].
  apply quote_plus_total in Hq as [q Hq].
  cbn [urlencode]. rewrite Hk, Hd, Hq.
  replace (quote_plus (lit "api_key")) with (Ok (lit "api_key"))
    by (vm_compute; reflexivity).
  replace (quote_plus (lit "type")) with (Ok (lit "type"))
    by (vm_compute; reflexivity).
  replace (quote_plus (lit "search")) with (Ok (lit "search"))
    by (vm_compute; reflexivity).
  replace (quote_plus (lit "amazon_domain")) with (Ok (lit "amazon_domain"))
    by (vm_compute; reflexivity).
  replace (quote_plus (lit "search_term")) with (Ok (lit "search_term"))
    by (vm_compute; reflexivity).
  cbn [bind]. eexists. intros urlopen max_items. reflexivity.
Qed.

(** The URL of a request [search_rainforest] sends. *)
Lemma search_request cfg urlopen query max_items req :
  In req (fst (search_rainforest py_repr cfg urlopen query max_items)) ->
  exists key k d t,
    RAINFOREST_API_KEY cfg = Some key
    /\ quote_plus key = Ok k
    /\ quote_plus (AMAZON_DOMAIN cfg) = Ok d
    /\ quote_plus query = Ok t
    /\ url req
       = RAINFOREST_ENDPOINT ++ lit "?api_key=" ++ k
         ++ lit "&type=search&amazon_domain=" ++ d
         ++ lit "&search_term=" ++ t.
Proof.
  unfold search_rainforest.
  destruct (RAINFOREST_API_KEY cfg) as [[|c key]|]; try (intros []).
  destruct (urlencode _) as [params|e] eqn:Hp; [|intros []].
  cbn [fst In]. intros [<-|[]]. cbn [url].
  cbn [urlencode] in Hp.
  apply bind_Ok in Hp as (k1 & H1 & Hp). vm_compute in H1.
  apply Ok_inj in H1 as <-.
  apply bind_Ok in Hp as (k & Hk & Hp).
  apply bind_Ok in Hp as (r1 & Hr1 & Hp). apply Ok_inj in Hp as <-.
  apply bind_Ok in Hr1 as (k2 & H2 & Hr1). vm_compute in H2.
  apply Ok_inj in H2 as <-.
  apply bind_Ok in Hr1 as (v2 & Hv2 & Hr1). vm_compute in Hv2.
  apply Ok_inj in Hv2 as <-.
  apply bind_Ok in Hr1 as (r2 & Hr2 & Hr1). apply Ok_inj in Hr1 as <-.
  apply bind_Ok in Hr2 as (k3 & H3 & Hr2). vm_compute in H3.
  apply Ok_inj in H3 as <-.
  apply bind_Ok in Hr2 as (d & Hd & Hr2).
  apply bind_Ok in Hr2 as (r3 & Hr3 & Hr2). apply Ok_inj in Hr2 as <-.
  apply bind_Ok in Hr3 as (k4 & H4 & Hr3). vm_compute in H4.
  apply Ok_inj in H4 as <-.
  apply bind_Ok in Hr3 as (t & Ht & Hr3). apply Ok_inj in Hr3 as <-.
  exists (c :: key), k, d, t. repeat split; try assumption.
Qed.

Lemma search_field_joints :
  starts_with (rev SEARCH_FIELD_OPEN) (rev HEAD_BEFORE_QUERY) = true
  /\ starts_with SEARCH_FIELD_CLOSE HEAD_AFTER_QUERY = true.
Proof. vm_compute. split; reflexivity. Qed.

(** The search field of a page holds the query the page was rendered
    for. *)
Lemma page_search_field cfg query rs e out :
  render_html py_repr cfg query rs e = Ok out ->
  shows out (SEARCH_FIELD_OPEN ++ escape query ++ SEARCH_FIELD_CLOSE).
Proof.
  unfold render_html, render_text. intros H.
  apply bind_Ok in H as (text & Htext & H).
  apply bind_Ok in Htext as (listed & _ & Htext). apply Ok_inj in Htext as <-.
  destruct search_field_joints as [J J'].
  apply (shows_part _ _ _ H). apply part_app_l.
  apply part_between; assumption.
Qed.

(** C8: on what [parse_qs] returns (no key with an empty list of
    values), the effective query is the trimmed first value of [q], or
    the default when that is empty or [q] is absent.  Outside [/healthz]
    it is the query of the fetch: every request sent has it, encoded, as
    the [search_term] that ends its URL, and with a credential one request
    is sent whenever credential, domain and query can be encoded.  And it
    is the query shown in the form: the page of every reply has it,
    escaped, as the value of the search field. *)
Theorem effective_query_trimmed_or_default cfg urlopen path qs :
  lookup (lit "q") qs <> Some [] ->
  exists q,
    effective_query qs = Ok q
    /\ EffectiveQuery
         match lookup (lit "q") qs with
         | Some (v :: _) => Some v
         | _ => None
         end q
    /\ (starts_with (lit "/healthz") path = false ->
        (forall req,
           In req (fst (do_GET py_repr cfg urlopen path qs)) ->
           exists key k d t,
             RAINFOREST_API_KEY cfg = Some key
             /\ quote_plus key = Ok k
             /\ quote_plus (AMAZON_DOMAIN cfg) = Ok d
             /\ quote_plus q = Ok t
             /\ forallb url_safe t = true
             /\ url req
                = RAINFOREST_ENDPOINT ++ lit "?api_key=" ++ k
                  ++ lit "&type=search&amazon_domain=" ++ d
                  ++ lit "&search_term=" ++ t)
        /\ (forall c key,
              RAINFOREST_API_KEY cfg = Some (c :: key) ->
              encodable (c :: key) = true ->
              encodable (AMAZON_DOMAIN cfg) = true ->
              encodable q = true ->
              exists req, fst (do_GET py_repr cfg urlopen path qs) = [req])
        /\ (forall resp,
              snd (do_GET py_repr cfg urlopen path qs) = Ok resp ->
              shows (body resp)
                (SEARCH_FIELD_OPEN ++ escape q ++ SEARCH_FIELD_CLOSE))).
Proof.
  intros Hqs.
  assert (Hq : exists q,
             effective_query qs = Ok q
             /\ EffectiveQuery
                  match lookup (lit "q") qs with
                  | Some (v :: _) => Some v
                  | _ => None
                  end q).
  { unfold effective_query.
    destruct (lookup (lit "q") qs) as [[|v vs]|].
    - destruct (Hqs eq_refl).
    - exists (match strip v with [] => DEFAULT_QUERY | _ => strip v end).
      split; [destruct (strip v); reflexivity|].
      exists (strip v). split; [apply strip_Trimmed | reflexivity].
    - exists DEFAULT_QUERY. split; reflexivity. }
  destruct Hq as (q & Hq & Hspec). exists q.
  split; [exact Hq|]. split; [exact Hspec|].
  intros Hpath. unfold do_GET, serve. rewrite Hpath, Hq.
  split; [|split].
  - intros req Hreq.
    assert (Hin : In req (fst (search_rainforest py_repr cfg urlopen q 10)))
      by (destruct (search_rainforest py_repr cfg urlopen q 10); exact Hreq).
    destruct (search_request _ _ _ _ _ Hin)
      as (key & k & d & t & Hkey & Hk & Hd & Ht & Hurl).
    exists key, k, d, t. repeat split; try assumption.
    apply (quote_plus_safe _ _ Ht).
  - intros c key Hkey Hk Hd Henc.
    destruct (search_rainforest_sends cfg q c key Hkey Hk Hd Henc)
      as [req Hsend].
    exists req. rewrite Hsend. reflexivity.
  - intros resp.
    destruct (search_rainforest py_repr cfg urlopen q 10) as [sent payload].
    cbn [snd]. intros H.
    apply bind_Ok in H as (p & _ & H). apply bind_Ok in H as (html & Hhtml & H).
    apply Ok_inj in H as <-. cbn [body].
    apply (page_search_field _ _ _ _ _ Hhtml).
Qed.

(** X16: without a credential, a request outside [/healthz] whose query
    and configured domain can be encoded is answered, with nothing sent,
    by a page with status 200 that has the missing-credential banner and
    the no-results notice. *)
Theorem missing_credential_page cfg urlopen path qs query :
  starts_with (lit "/healthz") path = false ->
  effective_query qs = Ok query ->
  RAINFOREST_API_KEY cfg = None \/ RAINFOREST_API_KEY cfg = Some [] ->
  encodable query = true -> encodable (AMAZON_DOMAIN cfg) = true ->
  exists resp,
    do_GET py_repr cfg urlopen path qs = ([], Ok resp)
    /\ status resp = 200%Z
    /\ shows (body resp)
         (BANNER_OPEN
          ++ lit "Missing RAINFOREST_API_KEY environment variable."
          ++ DIV_CLOSE)
    /\ shows (body resp) NO_RESULTS.
Proof.
  intros Hpath Hquery Hkey Hq Hd. unfold do_GET, serve.
  rewrite Hpath, Hquery.
  assert (Hs : search_rainforest py_repr cfg urlopen query 10
               = ([], Ok (failed (lit "Missing RAINFOREST_API_KEY environment variable.")))).
  { unfold search_rainforest. destruct Hkey as [-> | ->]; reflexivity. }
  rewrite Hs. cbn [bind failed error results].
  destruct (error_page cfg query 77%N
              (lit "issing RAINFOREST_API_KEY environment variable.") Hq Hd
              eq_refl) as (out & Hout & Hbanner & Hnotice).
  match goal with
  | |- context [render_html ?a ?b ?c ?d ?e] =>
      replace (render_html a b c d e) with (Ok out) by (symmetry; exact Hout)
  end.
  cbn [bind]. eexists. split; [reflexivity|].
  cbn [status body]. repeat split; assumption.
Qed.

(** X17: with a credential, when the fetch fails in any of the three
    ways (and the texts involved can be encoded), a request outside
    [/healthz] is still answered with status 200: one request was sent,
    and the page has the banner with the error text of that failure and
    the no-results notice. *)
Theorem failed_fetch_page cfg urlopen path qs query c key :
  starts_with (lit "/healthz") path = false ->
  effective_query qs = Ok query ->
  RAINFOREST_API_KEY cfg = Some (c :: key) ->
  encodable (c :: key) = true -> encodable (AMAZON_DOMAIN cfg) = true ->
  encodable query = true ->
  (forall req, exists x message,
      failure_message (urlopen req) = Some (x :: message)
      /\ encodable (x :: message) = true) ->
  exists req message resp,
    do_GET py_repr cfg urlopen path qs = ([req], Ok resp)
    /\ failure_message (urlopen req) = Some message
    /\ status resp = 200%Z
    /\ shows (body resp) (BANNER_OPEN ++ escape message ++ DIV_CLOSE)
    /\ shows (body resp) NO_RESULTS.
Proof.
  intros Hpath Hquery Hkey Hk Hd Hq Hfail. unfold do_GET, serve.
  rewrite Hpath, Hquery.
  destruct (search_rainforest_sends cfg query c key Hkey Hk Hd Hq)
    as [req Hsend].
  rewrite Hsend.
  destruct (Hfail req) as (x & message & Hmsg & Hm).
  exists req, (x :: message).
  destruct (error_page cfg query x message Hq Hd Hm)
    as (out & Hout & Hbanner & Hnotice).
  assert (Hr : match urlopen req with
               | Parsed data =>
                   cleaned <- clean py_repr data 10 ;;
                   Ok {| error := None; results := cleaned |}
               | failure =>
                   match failure_message failure with
                   | Some message => Ok (failed message)
                   | None => Raise ValueError
                   end
               end = Ok (failed (x :: message))).
  { destruct (urlopen req); try discriminate Hmsg;
      cbn [failure_message] in *; congruence. }
  rewrite Hr. cbn [bind failed error results].
  match goal with
  | |- context [render_html ?a ?b ?c ?d ?e] =>
      replace (render_html a b c d e) with (Ok out) by (symmetry; exact Hout)
  end.
  cbn [bind]. eexists. split; [reflexivity|]. cbn [status body].
  repeat split; assumption.
Qed.

Lemma normalize_title item r :
  normalize py_repr (PDict item) = Ok r ->
  get_default r (lit "title") (PStr [])
  = por (get item (lit "title")) (PStr (lit "(no title)")).
Proof.
  intros H. unfold normalize in H. cbn [dict_of bind] in H.
  destruct (resolve_price item) as [price|e]; [|discriminate H].
  cbn [bind] in H. apply Ok_inj in H as <-. reflexivity.
Qed.

(** X18: from the reply to the page.  When [do_GET] answers a request
    outside [/healthz] for which the upstream reply was an object with a
    list of results, each of the first ten raw items that is an object
    is on the page with its title, or with the placeholder when it has
    none. *)
Theorem reply_items_are_shown cfg urlopen path qs sent resp :
  do_GET py_repr cfg urlopen path qs = (sent, Ok resp) ->
  starts_with (lit "/healthz") path = false ->
  forall req d raw,
    sent = [req] -> urlopen req = Parsed (PDict d) ->
    get_default d (lit "search_results") (PList []) = PList raw ->
    forall item,
      In (PDict item) (firstn 10 raw) ->
      shows (body resp)
        (TITLE_OPEN
         ++ escape (py_str py_repr
                      (por (get item (lit "title"))
                           (PStr (lit "(no title)"))))
         ++ lit "</div>").
Proof.
  unfold do_GET. intros H Hpath. rewrite Hpath in H.
  destruct (effective_query qs) as [query|e]; [|discriminate H].
  unfold serve in H.
  destruct (search_rainforest py_repr cfg urlopen query 10)
    as [sent' payload] eqn:Hs.
  injection H as <- H.
  apply bind_Ok in H as (p & -> & H). apply bind_Ok in H as (html & Hhtml & H).
  apply Ok_inj in H as <-. cbn [body].
  intros req d raw -> Hnet Hraw item Hitem.
  apply search_rainforest_Ok in Hs
    as [(message & _ & Hno)|(req' & data & cleaned & Hreq & Hnet' & Hc & ->)].
  { destruct (Hno req (PDict d) eq_refl Hnet). }
  injection Hreq as <-. rewrite Hnet in Hnet'. injection Hnet' as <-.
  apply clean_Ok in Hc as (d' & items & Hd & Hsl & Hall).
  injection Hd as <-. rewrite Hraw in Hsl. cbn [sliced] in Hsl.
  apply Ok_inj in Hsl as <-.
  change (slice_to 10 raw) with (firstn 10 raw) in Hall.
  destruct (Forall2_In_left _ _ _ _ Hall Hitem) as (r & Hr & Hnorm).
  cbn [results error] in Hhtml.
  destruct (page_has_card _ _ _ _ _ _ Hhtml Hr)
    as (text & card & Henc & Hcard & Hpart).
  destruct (card_parts _ _ Hcard) as (Ht & _).
  rewrite (normalize_title _ _ Hnorm) in Ht.
  apply (shows_part _ _ _ Henc). eapply part_trans; eassumption.
Qed.

End Page.

(** ** Closed instances of the further properties *)

Lemma environment_wins_example :
  lookup (lit "RAINFOREST_API_KEY") environ_with_key
  = Some (lit "from-environment")
  /\ lookup (lit "RAINFOREST_API_KEY")
       (_load_dotenv (Some file_key_and_port) environ_with_key)
     = Some (lit "from-environment").
Proof.
  split; [reflexivity|].
  apply (proj1 (load_dotenv_keeps_environment (Some file_key_and_port)
                  environ_with_key (lit "RAINFOREST_API_KEY")
                  (lit "from-environment") eq_refl)).
Defined.

Lemma values_from_lines_example :
  lookup (lit "PORT") (_load_dotenv (Some file_key_and_port) []) 
  = Some (lit "9000")
  /\ (lookup (lit "PORT") (@nil (pystr * pystr)) = Some (lit "9000")
      \/ (lookup (lit "PORT") (@nil (pystr * pystr)) = None
          /\ lit "PORT" <> []
          /\ exists line,
               In line file_key_and_port
               /\ dotenv_line line = Some (lit "PORT", lit "9000"))).
Proof.
  split; [reflexivity|].
  apply (load_dotenv_values_come_from_lines file_key_and_port []
           (lit "PORT") (lit "9000")).
  reflexivity.
Defined.

Lemma first_line_wins_example :
  Forall (passes_by (lit "C"))
    [lit "# settings" ++ newline; lit "A=1" ++ newline]
  /\ dotenv_line (lit "C=3" ++ newline) = Some (lit "C", lit "3")
  /\ lookup (lit "C") (_load_dotenv (Some file_bad_last) [])
     = Some (lit "3").
Proof.
  assert (H : Forall (passes_by (lit "C"))
                [lit "# settings" ++ newline; lit "A=1" ++ newline]).
  { apply Forall_cons; [exact I|].
    apply Forall_cons; [split; [discriminate | reflexivity]|].
    apply Forall_nil. }
  split; [exact H|]. split; [reflexivity|].
  apply (load_dotenv_first_line_wins
           [lit "# settings" ++ newline; lit "A=1" ++ newline]
           (lit "C=3" ++ newline)
           [lit "C=4" ++ newline; lit "B=x" ++ [0%N] ++ lit "y" ++ newline]
           [] (lit "C") (lit "3") H);
    [reflexivity | discriminate | reflexivity | reflexivity].
Defined.

Lemma stops_at_bad_line_example :
  settable (lit "B") (lit "x" ++ [0%N] ++ lit "y") = false
  /\ _load_dotenv (Some file_bad_middle) [] = [(lit "A", lit "1")]
  /\ lookup (lit "C") (_load_dotenv (Some file_bad_middle) []) = None.
Proof.
  split; [reflexivity|].
  assert (H : _load_dotenv (Some file_bad_middle) []
              = _load_dotenv (Some [lit "A=1" ++ newline]) []).
  { apply (load_dotenv_stops_at_bad_line [lit "A=1" ++ newline]
             (lit "B=x" ++ [0%N] ++ lit "y" ++ newline)
             [lit "C=3" ++ newline] [] (lit "B")
             (lit "x" ++ [0%N] ++ lit "y"));
      [ apply Forall_cons;
          [split; [discriminate | reflexivity] | apply Forall_nil]
      | reflexivity | discriminate | reflexivity | reflexivity ]. }
  rewrite H. split; reflexivity.
Defined.

Lemma ignored_lines_example :
  _load_dotenv (Some file_of_comments) environ_with_key = environ_with_key.
Proof.
  apply (load_dotenv_ignores_other_lines (Some file_of_comments)
           environ_with_key).
  apply Forall_cons; [right; left; reflexivity|].
  apply Forall_cons; [left; reflexivity|].
  apply Forall_cons; [right; right; reflexivity|].
  apply Forall_nil.
Defined.

Lemma reads_back_example :
  plain_name (lit "PORT") /\ plain_value (lit "9000")
  /\ dotenv_line (lit "PORT=" ++ dq ++ lit "9000" ++ dq ++ newline)
     = Some (lit "PORT", lit "9000").
Proof.
  assert (Hk : plain_name (lit "PORT"))
    by (repeat split; try reflexivity; discriminate).
  assert (Hv : plain_value (lit "9000")) by (repeat split; reflexivity).
  split; [exact Hk|]. split; [exact Hv|].
  apply (dotenv_line_reads_back (lit "PORT") (lit "9000") Hk Hv).
Defined.

Lemma no_credential_example :
  lookup (lit "RAINFOREST_API_KEY") (@nil (pystr * pystr)) = None
  /\ search_rainforest repr_stub
       (startup_config (_load_dotenv (Some file_of_comments) []))
       reply_twenty_five DEFAULT_QUERY 10
     = ([], Ok (failed
                  (lit "Missing RAINFOREST_API_KEY environment variable."))).
Proof.
  split; [reflexivity|].
  apply (no_credential_anywhere repr_stub file_of_comments []
           reply_twenty_five DEFAULT_QUERY 10); [reflexivity|].
  repeat constructor; intros v H; vm_compute in H; discriminate H.
Defined.

Lemma outcome_example :
  exists sent out,
    search_rainforest repr_stub with_key timed_out DEFAULT_QUERY 10
    = (sent, Ok out)
    /\ results out = []
    /\ error out = Some (lit "Network error: timed out")
    /\ ((error out = None
         /\ exists req data, sent = [req] /\ timed_out req = Parsed data)
        \/ (results out = []
            /\ exists c message, error out = Some (c :: message))).
Proof.
  eexists. eexists. split; [reflexivity|].
  split; [reflexivity|]. split; [reflexivity|].
  eapply (outcome_has_results_or_error repr_stub with_key timed_out
            DEFAULT_QUERY 10).
  reflexivity.
Defined.

Lemma request_example :
  exists req r,
    search_rainforest repr_stub with_key timed_out (lit "a b&c=d") 10
    = ([req], r)
    /\ url req
       = lit "https://api.rainforestapi.com/request?api_key=demo&type=search&amazon_domain=amazon.com&search_term=a+b%26c%3Dd"
    /\ timeout req = 15%Z.
Proof.
  eexists. eexists. split; [reflexivity|]. split; [reflexivity|].
  eapply (proj2 (request_is_well_formed repr_stub with_key timed_out
                   (lit "a b&c=d") 10 _ _ eq_refl)).
  reflexivity.
Defined.

Lemma bound_example :
  get_default [(lit "search_results", PList twenty_five)]
    (lit "search_results") (PList []) = PList twenty_five
  /\ clean repr_stub (PDict [(lit "search_results", PList twenty_five)]) 0
     = Ok []
  /\ clean repr_stub (PDict [(lit "search_results", PList twenty_five)])
       (-1)
     = map_result (normalize repr_stub) (firstn 24 twenty_five).
Proof.
  split; [reflexivity|].
  destruct (bound_zero_or_negative repr_stub
              [(lit "search_results", PList twenty_five)] twenty_five
              eq_refl) as [H0 Hneg].
  split; [exact H0|]. apply (Hneg 1%nat). lia.
Defined.

Lemma shape_example :
  exists r,
    normalize repr_stub (PDict item_both) = Ok r
    /\ List.length r = 7%nat
    /\ truthy (get r (lit "title")) = true.
Proof.
  eexists. split; [reflexivity|]. split; [reflexivity|].
  eapply (normalized_result_shape repr_stub item_both).
  reflexivity.
Defined.

Lemma page_shows_example :
  page_script = Ok page_script_bytes
  /\ shows page_script_bytes (VALUE_OPEN ++ lit "&lt;q&gt;" ++ dq)
  /\ shows page_script_bytes (TITLE_OPEN ++ lit "&lt;script&gt;</div>").
Proof.
  assert (H : page_script = Ok page_script_bytes)
    by (vm_compute; reflexivity).
  split; [exact H|].
  destruct (page_shows_its_inputs repr_stub with_key (lit "<q>")
              [card_script] (Some (lit "<e>")) page_script_bytes H)
    as (Hq & _ & _ & Hr).
  split; [exact Hq|].
  destruct (Hr card_script (or_introl eq_refl)) as (Ht & _).
  exact Ht.
Defined.

Lemma healthz_example :
  exists resp,
    do_GET repr_stub without_key timed_out (lit "/healthz?q=x") qs_switch
    = ([], Ok resp)
    /\ status resp = 200%Z /\ body resp = lit "ok".
Proof.
  eexists. split; [reflexivity|]. split.
  - eapply (do_GET_replies_200 repr_stub without_key timed_out
              (lit "/healthz?q=x") qs_switch). reflexivity.
  - reflexivity.
Defined.

Lemma never_blank_example :
  effective_query qs_blank = Ok DEFAULT_QUERY
  /\ DEFAULT_QUERY <> [] /\ strip DEFAULT_QUERY = DEFAULT_QUERY.
Proof.
  split; [reflexivity|].
  apply (effective_query_never_blank qs_blank DEFAULT_QUERY). reflexivity.
Defined.

Lemma missing_credential_page_example :
  exists resp,
    do_GET repr_stub without_key reply_twenty_five (lit "/") qs_switch
    = ([], Ok resp)
    /\ status resp = 200%Z
    /\ shows (body resp)
         (BANNER_OPEN
          ++ lit "Missing RAINFOREST_API_KEY environment variable."
          ++ DIV_CLOSE)
    /\ shows (body resp) NO_RESULTS.
Proof.
  apply (missing_credential_page repr_stub without_key reply_twenty_five
           (lit "/") qs_switch (lit "nintendo switch"));
    [reflexivity | reflexivity | left; reflexivity | reflexivity
    | reflexivity].
Defined.

Lemma failed_fetch_page_example :
  exists req message resp,
    do_GET repr_stub with_key timed_out (lit "/") qs_switch
    = ([req], Ok resp)
    /\ failure_message (timed_out req) = Some message
    /\ status resp = 200%Z
    /\ shows (body resp) (BANNER_OPEN ++ escape message ++ DIV_CLOSE)
    /\ shows (body resp) NO_RESULTS.
Proof.
  apply (failed_fetch_page repr_stub with_key timed_out (lit "/") qs_switch
           (lit "nintendo switch") 100%N (lit "emo"));
    try reflexivity.
  intros req. exists 78%N, (lit "etwork error: timed out").
  split; reflexivity.
Defined.

Lemma items_shown_example :
  fst reply_to_switch <> []
  /\ shows reply_to_switch_body (TITLE_OPEN ++ lit "9</div>").
Proof.
  split; [discriminate|].
  assert (H : exists req,
             do_GET repr_stub with_key reply_twenty_five (lit "/") qs_switch
             = ([req], Ok {| status := 200;
                             response_headers :=
                               [(lit "Content-Type",
                                 lit "text/html; charset=utf-8");
                                (lit "Cache-Control", lit "no-store")];
                             body := reply_to_switch_body |}))
    by (eexists; vm_compute; reflexivity).
  destruct H as [req H].
  apply (reply_items_are_shown repr_stub with_key reply_twenty_five
           (lit "/") qs_switch _ _ H eq_refl req
           [(lit "search_results", PList twenty_five)] twenty_five eq_refl
           eq_refl eq_refl [(lit "title", PStr (lit "9"))]).
  do 9 right. left. reflexivity.
Defined.

Lemma effective_query_example :
  lookup (lit "q") qs_padded <> Some []
  /\ effective_query qs_padded = Ok (lit "nintendo switch")
  /\ EffectiveQuery (Some (lit "  nintendo switch ")) (lit "nintendo switch")
  /\ map url (fst reply_to_padded)
     = [ RAINFOREST_ENDPOINT
         ++ lit "?api_key=demo&type=search&amazon_domain=amazon.com&search_term=nintendo+switch" ]
  /\ (exists resp, snd reply_to_padded = Ok resp
                   /\ body resp = reply_to_padded_body)
  /\ shows reply_to_padded_body
       (SEARCH_FIELD_OPEN ++ lit "nintendo switch" ++ SEARCH_FIELD_CLOSE).
Proof.
  assert (Hne : lookup (lit "q") qs_padded <> Some []) by discriminate.
  assert (Hq' : effective_query qs_padded = Ok (lit "nintendo switch"))
    by reflexivity.
  assert (Hresp : snd reply_to_padded
                  = Ok {| status := 200;
                          response_headers :=
                            [(lit "Content-Type",
                              lit "text/html; charset=utf-8");
                             (lit "Cache-Control", lit "no-store")];
                          body := reply_to_padded_body |})
    by (vm_compute; reflexivity).
  destruct (effective_query_trimmed_or_default repr_stub with_key timed_out
              (lit "/") qs_padded Hne) as (q & Hq & Hspec & Hlink).
  rewrite Hq' in Hq. apply Ok_inj in Hq. subst q.
  destruct (Hlink eq_refl) as (_ & _ & Hpage).
  split; [exact Hne|]. split; [exact Hq'|]. split; [exact Hspec|].
  split; [vm_compute; reflexivity|].
  split; [eexists; split; [exact Hresp | reflexivity]|].
  exact (Hpage _ Hresp).
Defined.
